(** * Retrieval adapters of open-webui: BM25S retriever and Docling loader

    A shallow embedding of
    - [backend/open_webui/retrieval/bm25s_adapter.py]  (class [BM25SRetriever])
    - [backend/open_webui/retrieval/loaders/docling_api.py] (class [DoclingApiLoader])

    Python values are an inductive type, dictionaries are [gmap string value],
    exceptions are values of a sum type and every method runs in a small
    state-and-exception monad whose state survives a raise, as in Python.
    The libraries the code calls ([bm25s], [numpy], [requests], the file
    system) are interfaces: the theorems hold for every implementation, and
    small executable test doubles instantiate them for the examples. *)

From Stdlib Require Import PrimFloat Uint63 ZArith Ascii String.
From stdpp Require Import gmap strings list fin_maps pretty.

Local Open Scope Z_scope.
Local Open Scope string_scope.

(** ** Python values *)

(** What [Dict[str, Any]] metadata and decoded JSON hold. *)
#[warnings="-register-all"]
Inductive value :=
  | VNone
  | VBool (b : bool)
  | VInt (z : Z)
  | VFloat (f : float)
  | VStr (s : string)
  | VList (l : list value)
  | VDict (m : gmap string value).

Abbreviation dict := (gmap string value).

(** ** Exceptions *)

(** The classes the two files raise or catch by name; every other
    subclass of [Exception] is [OtherException] with its class name. *)
Inductive exn_class :=
  | ImportError
  | ValueError
  | TypeError
  | KeyError
  | FileNotFoundError
  | ValidationError
  | OtherException (name : string).

(** An exception instance: its class and [str(e)]. *)
Record exn := Exn { exn_cls : exn_class; exn_str : string }.

Inductive outcome (A : Type) :=
  | Ok (a : A)
  | Raised (e : exn).
Arguments Ok {A} a.
Arguments Raised {A} e.

(** Computations that return or raise and touch no state. *)
#[export] Instance outcome_ret : MRet outcome := fun A => Ok.
#[export] Instance outcome_bind : MBind outcome := fun A B f m =>
  match m with
  | Ok a => f a
  | Raised e => Raised e
  end.

(** [except ValueError] also catches the subclasses of [ValueError];
    pydantic's [ValidationError] is one. *)
Definition is_ValueError (c : exn_class) : bool :=
  match c with
  | ValueError | ValidationError => true
  | _ => false
  end.

(** ** Logging *)

Inductive log_level := DEBUG | INFO | WARNING | ERROR.

Record log_record := LogRecord { level : log_level; message : string }.

(** States that carry the records written through [log]. *)
Class HasLog (S : Type) := add_record : log_record -> S -> S.

#[export] Instance log_list : HasLog (list log_record) :=
  fun r logs => (logs ++ [r])%list.

(** ** The state-and-exception monad *)

Definition M (S A : Type) : Type := S -> S * outcome A.

Definition ret {S A} (a : A) : M S A := fun s => (s, Ok a).

Definition bind {S A B} (m : M S A) (f : A -> M S B) : M S B :=
  fun s =>
    match m s with
    | (s', Ok a) => f a s'
    | (s', Raised e) => (s', Raised e)
    end.

Definition raise {S A} (e : exn) : M S A := fun s => (s, Raised e).

(** A library call: it returns or raises, and leaves our state alone. *)
Definition call {S A} (r : outcome A) : M S A := fun s => (s, r).

Definition gets {S A} (f : S -> A) : M S A := fun s => (s, Ok (f s)).

Definition modify {S} (f : S -> S) : M S unit := fun s => (f s, Ok tt).

(** [try: m  except Exception as e: h e] *)
Definition try_except {S A} (m : M S A) (h : exn -> M S A) : M S A :=
  fun s =>
    match m s with
    | (s', Raised e) => h e s'
    | r => r
    end.

(** [try: m  except C as e: h e] for the classes [C] selected by [catches]. *)
Definition try_except_on {S A} (catches : exn_class -> bool)
    (m : M S A) (h : exn -> M S A) : M S A :=
  fun s =>
    match m s with
    | (s', Raised e) => if catches (exn_cls e) then h e s' else (s', Raised e)
    | r => r
    end.

Declare Scope py_scope.
Delimit Scope py_scope with py.
Notation "'let*' x ':=' m 'in' k" := (bind m (fun x => k))
  (at level 10, x name, m at level 100, k at level 200) : py_scope.
Notation "'let*' ' p ':=' m 'in' k" := (bind m (fun x => match x with p => k end))
  (at level 10, p pattern, m at level 100, k at level 200) : py_scope.
Notation "m ';;' k" := (bind m (fun _ => k))
  (at level 100, k at level 200, right associativity) : py_scope.
Local Open Scope py_scope.

(** [log.info(msg)], [log.warning(msg)], ... *)
Definition log {S} `{HasLog S} (lvl : log_level) (msg : string) : M S unit :=
  modify (add_record (LogRecord lvl msg)).

(** ** String helpers shared by both files *)

(** [s[:n]] *)
Definition str_take (n : nat) (s : string) : string := String.substring 0 n s.

(** [str(x)] inside an f-string, for an integer. *)
Definition str_of_Z (z : Z) : string := pretty z.
Definition str_of_nat (n : nat) : string := pretty n.

(** ** langchain's [Document] *)

(** [Document(page_content=..., metadata=...)] validates its arguments into
    a new object: the record holds the content the mapping has at that
    moment. *)
Record Document := mkDocument { page_content : string; metadata : dict }.

(** ** [bm25s_adapter.py] *)

Module Bm25sAdapter.

(** *** The [bm25s] library, as the adapter uses it *)

(** [scores] as returned by [BM25.retrieve]: whether it is a
    [numpy.ndarray], and its row 0. *)
Record score_array := {
  is_ndarray : bool;
  scores_type : string;   (* what [f"{type(scores)}"] prints *)
  scores_row0 : list float
}.

Class Bm25s := {
  (** what [bm25s.tokenize] returns *)
  Tokenized : Type;
  (** a [bm25s.BM25] object *)
  BM25 : Type;
  (** [bm25s.tokenize(texts)]; a single string is a one-element list *)
  tokenize : list string -> outcome Tokenized;
  (** [len(tokens)] *)
  tokenized_len : Tokenized -> nat;
  (** [bm25s.BM25(method=...)] *)
  BM25_new : string -> BM25;
  (** [retriever.index(corpus_tokens)] *)
  index : BM25 -> Tokenized -> outcome BM25;
  (** [retriever.activate_numba_scorer()] *)
  activate_numba_scorer : BM25 -> outcome BM25;
  (** [retriever.retrieve(query_tokens, corpus=..., k=...)]: row 0 of
      [results] (the array has shape [(1, len row)]) and [scores] *)
  retrieve : BM25 -> Tokenized -> list string -> Z ->
             outcome (list string * score_array)
}.

Section Adapter.
Context `{Lib : Bm25s}.

(** *** The class *)

Record BM25SRetriever := {
  texts : list string;          (* Original texts *)
  metadatas : list dict;        (* Original metadatas *)
  k : Z;                        (* Number of documents to retrieve *)
  _corpus_tokens : Tokenized;
  _retriever : BM25
}.

(** [__init__]: the module flag [BM25S_AVAILABLE] is an argument.
    [super().__init__] only checks the field types, which the argument
    types already give.  [index] and [activate_numba_scorer] change the
    [BM25] object in place; here they return the changed object, and a call
    that raises leaves the object as it was. *)
Definition __init__ (BM25S_AVAILABLE : bool)
    (texts : list string) (metadatas : list dict) (k : Z)
    : M (list log_record) BM25SRetriever :=
  if negb BM25S_AVAILABLE then
    raise (Exn ImportError
      "bm25s package not found. Please install it with `pip install bm25s`.")
  else
    let* corpus_tokens := call (tokenize texts) in
    let* retriever := call (index (BM25_new "lucene") corpus_tokens) in
    let* retriever :=
      try_except
        (let* r := call (activate_numba_scorer retriever) in
         log INFO "BM25S: Numba acceleration activated";;
         ret r)
        (fun e =>
           log WARNING ("BM25S: Could not activate Numba acceleration: "
                        +:+ exn_str e);;
           ret retriever) in
    ret {| texts := texts; metadatas := metadatas; k := k;
           _corpus_tokens := corpus_tokens; _retriever := retriever |}.

(** *** [_get_relevant_documents] *)

(** The state of one call: the retriever object, the log and the local
    list [documents], which the handler of the outer [try] still sees. *)
Record frame := Frame {
  self : BM25SRetriever;
  logs : list log_record;
  documents : list Document
}.

#[export] Instance log_frame : HasLog frame :=
  fun r fr => Frame (self fr) (logs fr ++ [r])%list (documents fr).

(** The local variable [metadata] names either the mapping stored at
    [self.metadatas[doc_idx]] (no copy is taken) or a new [{}]. *)
Inductive metadata_ref :=
  | Stored (doc_idx : nat)
  | Local (d : dict).

(** The mapping a reference names. *)
Definition deref (m : metadata_ref) : M frame dict :=
  match m with
  | Stored doc_idx => gets (fun fr => default ∅ (metadatas (self fr) !! doc_idx))
  | Local d => ret d
  end.

Definition set_metadatas (ms : list dict) (r : BM25SRetriever) : BM25SRetriever :=
  {| texts := texts r; metadatas := ms; k := k r;
     _corpus_tokens := _corpus_tokens r; _retriever := _retriever r |}.

(** [metadata[key] = v]: a write through [Stored] lands in the retriever. *)
Definition setitem (m : metadata_ref) (key : string) (v : value)
    : M frame metadata_ref :=
  match m with
  | Stored doc_idx =>
      modify (fun fr =>
        Frame (set_metadatas
                 (alter (fun d => <[key := v]> d) doc_idx (metadatas (self fr)))
                 (self fr))
              (logs fr) (documents fr));;
      ret (Stored doc_idx)
  | Local d => ret (Local (<[key := v]> d))
  end.

(** [documents.append(doc)] *)
Definition append (doc : Document) : M frame unit :=
  modify (fun fr => Frame (self fr) (logs fr) (documents fr ++ [doc])%list).

(** [self.texts.index(doc_text)]: the first position holding an equal
    string, [ValueError] if there is none. *)
Fixpoint list_index (x : string) (l : list string) : option nat :=
  match l with
  | [] => None
  | y :: l' => if decide (y = x) then Some 0%nat else S <$> list_index x l'
  end.

Definition texts_index (doc_text : string) : M frame nat :=
  let* ts := gets (fun fr => texts (self fr)) in
  match list_index doc_text ts with
  | Some doc_idx => ret doc_idx
  | None => raise (Exn ValueError ("'" +:+ doc_text +:+ "' is not in list"))
  end.

(** [float(scores[0, i])] under the guard
    [isinstance(scores, np.ndarray) and i < len(scores[0])]; [None] when
    the guard fails. *)
Definition score_at (scores : score_array) (i : nat) : option float :=
  if is_ndarray scores then scores_row0 scores !! i else None.

(** The body of the [for] loop for column [i], where
    [doc_text = results[0, i]]. *)
Definition convert_result (scores : score_array) (i : nat) (doc_text : string)
    : M frame unit :=
  try_except_on is_ValueError
    (let* doc_idx := texts_index doc_text in
     let* n := gets (fun fr => length (metadatas (self fr))) in
     let metadata := if decide (doc_idx < n)%nat then Stored doc_idx else Local ∅ in
     let* metadata :=
       match score_at scores i with
       | Some score_value =>
           let* d := deref metadata in
           if decide (d !! "score" = None)
           then setitem metadata "score" (VFloat score_value)
           else ret metadata
       | None => ret metadata
       end in
     let* d := deref metadata in
     append (mkDocument doc_text d))
    (fun _ =>
       log WARNING ("BM25S: Document text not found in corpus: "
                    +:+ str_take 100 doc_text +:+ "...");;
       let metadata := Local ∅ in
       let* metadata :=
         match score_at scores i with
         | Some score_value => setitem metadata "score" (VFloat score_value)
         | None => ret metadata
         end in
       let* d := deref metadata in
       append (mkDocument doc_text d)).

(** [for i in range(results.shape[1])], from column [i] on; [row] is what
    is left of row 0 of [results]. *)
Fixpoint for_range (scores : score_array) (i : nat) (row : list string)
    : M frame unit :=
  match row with
  | [] => ret tt
  | doc_text :: row' =>
      convert_result scores i doc_text;;
      for_range scores (S i) row'
  end.

(** [f"{a.shape}"] for an array of shape [(1, n)] *)
Definition shape_str (n : nat) : string := "(1, " +:+ str_of_nat n +:+ ")".

Definition _get_relevant_documents (query : string) : M frame (list Document) :=
  let* query_tokens := call (tokenize [query]) in
  log INFO ("BM25S: Query tokenized to "
            +:+ str_of_nat (tokenized_len query_tokens) +:+ " tokens");;
  let* this := gets self in
  let* '(results, scores) :=
    call (retrieve (_retriever this) query_tokens (texts this) (k this)) in
  log INFO ("BM25S: Retrieved results shape: " +:+ shape_str (length results));;
  log INFO ("BM25S: Retrieved scores shape: "
            +:+ shape_str (length (scores_row0 scores)));;
  log INFO "BM25S: Results type: <class 'numpy.ndarray'>";;
  log INFO ("BM25S: Scores type: " +:+ scores_type scores);;
  modify (fun fr => Frame (self fr) (logs fr) []);;
  try_except
    (for_range scores 0 results)
    (fun e => log ERROR ("BM25S: Error processing results: " +:+ exn_str e));;
  gets documents.

(** One call on a retriever: the retriever and the log afterwards, and
    what the caller gets. *)
Definition run_query (r : BM25SRetriever) (lg : list log_record) (query : string)
    : BM25SRetriever * list log_record * outcome (list Document) :=
  let '(fr, res) := _get_relevant_documents query (Frame r lg []) in
  (self fr, logs fr, res).

(** *** The loop read as a function on the stored mappings

    These say in one place what a column does to [self.metadatas] and
    which [Document] it appends; [convert_result_run] below proves that
    the loop body computes exactly this. *)

(** [if 'score' not in d: d['score'] = score_value], when a score is there *)
Definition stamp (o : option float) (d : dict) : dict :=
  match o with
  | Some score_value =>
      if decide (d !! "score" = None) then <["score" := VFloat score_value]> d else d
  | None => d
  end.

(** The stored mapping a result text resolves to, if any. *)
Definition resolve (ts : list string) (ms : list dict) (doc_text : string)
    : option dict :=
  list_index doc_text ts ≫= fun doc_idx => ms !! doc_idx.

Definition step_store (ts : list string) (o : option float) (doc_text : string)
    (ms : list dict) : list dict :=
  match list_index doc_text ts with
  | Some doc_idx => alter (stamp o) doc_idx ms
  | None => ms
  end.

Definition step_doc (ts : list string) (o : option float) (doc_text : string)
    (ms : list dict) : Document :=
  mkDocument doc_text (stamp o (default ∅ (resolve ts ms doc_text))).

Definition step_logs (ts : list string) (doc_text : string) : list log_record :=
  match list_index doc_text ts with
  | Some _ => []
  | None => [LogRecord WARNING ("BM25S: Document text not found in corpus: "
                                +:+ str_take 100 doc_text +:+ "...")]
  end.

Fixpoint loop_store (ts : list string) (sc : score_array) (i : nat)
    (row : list string) (ms : list dict) : list dict :=
  match row with
  | [] => ms
  | t :: row' => loop_store ts sc (S i) row' (step_store ts (score_at sc i) t ms)
  end.

Fixpoint loop_docs (ts : list string) (sc : score_array) (i : nat)
    (row : list string) (ms : list dict) : list Document :=
  match row with
  | [] => []
  | t :: row' =>
      step_doc ts (score_at sc i) t ms
      :: loop_docs ts sc (S i) row' (step_store ts (score_at sc i) t ms)
  end.

Fixpoint loop_logs (ts : list string) (row : list string) : list log_record :=
  match row with
  | [] => []
  | t :: row' => (step_logs ts t ++ loop_logs ts row')%list
  end.

(** The log lines of one call, up to the loop. *)
Definition tokenized_line (qt : Tokenized) : log_record :=
  LogRecord INFO ("BM25S: Query tokenized to "
                  +:+ str_of_nat (tokenized_len qt) +:+ " tokens").

Definition retrieved_lines (row : list string) (sc : score_array)
    : list log_record :=
  [ LogRecord INFO ("BM25S: Retrieved results shape: " +:+ shape_str (length row));
    LogRecord INFO ("BM25S: Retrieved scores shape: "
                    +:+ shape_str (length (scores_row0 sc)));
    LogRecord INFO "BM25S: Results type: <class 'numpy.ndarray'>";
    LogRecord INFO ("BM25S: Scores type: " +:+ scores_type sc) ].

(** *** What the specification asks of a call, as predicates *)

(** Document [j] of the corpus is found in the results with its own
    stored metadata (the result may add a score to it). *)
Definition own_metadata_in_results (r : BM25SRetriever) (docs : list Document)
    (j : nat) : Prop :=
  exists doc d,
    doc ∈ docs /\ texts r !! j = Some (page_content doc) /\
    metadatas r !! j = Some d /\ d ⊆ metadata doc.

(** The call leaves the retriever as it was. *)
Definition retriever_unchanged (r : BM25SRetriever) (lg : list log_record)
    (q : string) : Prop :=
  (run_query r lg q).1.1 = r.

(** Every result shows the score of its column in this call. *)
Definition scores_current (r : BM25SRetriever) (lg : list log_record)
    (q : string) : Prop :=
  forall qt row sc,
    tokenize [q] = Ok qt ->
    retrieve (_retriever r) qt (texts r) (k r) = Ok (row, sc) ->
    exists docs, (run_query r lg q).2 = Ok docs /\
      forall i doc s,
        docs !! i = Some doc -> score_at sc i = Some s ->
        metadata doc !! "score" = Some (VFloat s).

(** The call returns a list to its caller. *)
Definition never_raises (r : BM25SRetriever) (lg : list log_record)
    (q : string) : Prop :=
  exists docs, (run_query r lg q).2 = Ok docs.

(** The call returns at most [min(k, n)] documents. *)
Definition length_bounded (r : BM25SRetriever) (lg : list log_record)
    (q : string) : Prop :=
  forall docs, (run_query r lg q).2 = Ok docs ->
    Z.of_nat (length docs) <= Z.min (k r) (Z.of_nat (length (texts r))).

(** The retriever and the log after a series of calls, one per query. *)
Definition run_queries (r : BM25SRetriever) (lg : list log_record)
    (qs : list string) : BM25SRetriever * list log_record :=
  foldl (fun st q => (run_query st.1 st.2 q).1) (r, lg) qs.

(** Construction raises. *)
Definition construction_fails (available : bool) (ts : list string)
    (ms : list dict) (k : Z) (lg : list log_record) : Prop :=
  exists e, (__init__ available ts ms k lg).2 = Raised e.

End Adapter.

(** *** The module's import block (lines 11-17)

    [import bm25s] and [import numpy] either succeed or raise; only
    [ImportError] (and its subclass [ModuleNotFoundError]) is caught.  The
    value returned is the flag [BM25S_AVAILABLE]. *)
Definition is_ImportError (c : exn_class) : bool :=
  match c with
  | ImportError => true
  | OtherException name => bool_decide (name = "ModuleNotFoundError")
  | _ => false
  end.

Definition import_block (import_bm25s import_numpy : outcome unit)
    : M (list log_record) bool :=
  try_except_on is_ImportError
    (call import_bm25s;;
     call import_numpy;;
     ret true)
    (fun _ =>
       log WARNING
         "bm25s package not found. BM25SRetriever will not be available.";;
       ret false).

(** *** A test double for [bm25s]

    Whitespace tokens, a document's score is the number of its tokens that
    occur in the query, ranking is by score with earlier documents first
    among equals.  As the library does, [retrieve] raises [ValueError] when
    [k] exceeds the number of indexed documents, and
    [activate_numba_scorer] raises [ImportError] when numba is missing. *)
Module Double.

Fixpoint words_aux (cur : string) (s : string) : list string :=
  match s with
  | EmptyString => if decide (cur = "") then [] else [cur]
  | String c s' =>
      if decide (c = " "%char)
      then (if decide (cur = "") then [] else [cur]) ++ words_aux "" s'
      else words_aux (cur +:+ String c "") s'
  end%list.

Definition words (s : string) : list string := words_aux "" s.

Record bm25 := { indexed : list (list string); backend_numba : bool }.

Definition overlap (query doc : list string) : nat :=
  length (filter (fun t => t ∈ query) doc).

Fixpoint insert_ranked (x : nat * nat) (l : list (nat * nat)) : list (nat * nat) :=
  match l with
  | [] => [x]
  | y :: l' => if decide (y.2 < x.2)%nat then x :: y :: l' else y :: insert_ranked x l'
  end.

(** positions with their scores, best first *)
Definition ranked (scored : list (nat * nat)) : list (nat * nat) :=
  foldl (fun acc x => insert_ranked x acc) [] scored.

Definition float_of_nat (n : nat) : float :=
  PrimFloat.of_uint63 (Uint63.of_Z (Z.of_nat n)).

Definition double_retrieve (b : bm25) (q : list (list string))
    (corpus : list string) (k : Z) : outcome (list string * score_array) :=
  let n := length (indexed b) in
  if decide (Z.of_nat n < k) then
    Raised (Exn ValueError
      ("k of " +:+ str_of_Z k
       +:+ " is larger than the number of available scores, which is "
       +:+ str_of_nat n))
  else
    let query := concat q in
    let scored := imap (fun i doc => (i, overlap query doc)) (indexed b) in
    let top := take (Z.to_nat k) (ranked scored) in
    Ok (map (fun x => default "" (corpus !! x.1)) top,
        {| is_ndarray := true;
           scores_type := "<class 'numpy.ndarray'>";
           scores_row0 := map (fun x => float_of_nat x.2) top |}).

Definition lib (numba_installed : bool) : Bm25s := {|
  Tokenized := list (list string);
  BM25 := bm25;
  tokenize := fun texts => Ok (map words texts);
  tokenized_len := fun t => length t;
  BM25_new := fun _ => {| indexed := []; backend_numba := false |};
  index := fun b toks => Ok {| indexed := toks; backend_numba := backend_numba b |};
  activate_numba_scorer := fun b =>
    if numba_installed
    then Ok {| indexed := indexed b; backend_numba := true |}
    else Raised (Exn ImportError "Numba is not installed.");
  retrieve := double_retrieve
|}.

(** A stub whose [retrieve] gives one canned answer. *)
Definition canned (answer : outcome (list string * score_array)) : Bm25s := {|
  Tokenized := list (list string);
  BM25 := unit;
  tokenize := fun texts => Ok (map words texts);
  tokenized_len := fun t => length t;
  BM25_new := fun _ => tt;
  index := fun _ _ => Ok tt;
  activate_numba_scorer := fun _ => Ok tt;
  retrieve := fun _ _ _ _ => answer
|}.

(** The retriever [__init__] builds over the double. *)
Definition retriever (numba_installed : bool) (ts : list string)
    (ms : list dict) (k : Z) : @BM25SRetriever (lib numba_installed) :=
  @Build_BM25SRetriever (lib numba_installed) ts ms k
    (map words ts)
    {| indexed := map words ts; backend_numba := numba_installed |}.

End Double.

(** *** Example corpora *)
Module Examples.

Definition meta_a : dict := <["tag" := VStr "a"]> (<["id" := VInt 0]> ∅).
Definition meta_b : dict := <["tag" := VStr "b"]> (<["id" := VInt 1]> ∅).

(** Two documents with the same text and different metadata. *)
Definition duplicates : @BM25SRetriever (Double.lib false) :=
  Double.retriever false ["cat dog"; "cat dog"] [meta_a; meta_b] 2.

Definition pets : list string :=
  ["the cat sat"; "the dog ran"; "cats and dogs"].

(** Three documents and the default [k = 4]. *)
Definition pets_default_k : @BM25SRetriever (Double.lib false) :=
  Double.retriever false pets [meta_a; meta_b; ∅] 4.

(** Three texts, two metadata mappings. *)
Definition pets_short_metadata : @BM25SRetriever (Double.lib false) :=
  Double.retriever false pets [meta_a; meta_b] 3.

(** A document whose metadata came with a score. *)
Definition rated : @BM25SRetriever (Double.lib false) :=
  Double.retriever false ["cat dog"]
    [<["score" := VFloat 99]> meta_a] 1.

(** A backend answer that names a text the corpus does not hold. *)
Definition foreign_answer : outcome (list string * score_array) :=
  Ok (["dog"; "cat"],
      {| is_ndarray := true;
         scores_type := "<class 'numpy.ndarray'>";
         scores_row0 := [2%float; 1%float] |}).

Definition cat_only : @BM25SRetriever (Double.canned foreign_answer) :=
  @Build_BM25SRetriever (Double.canned foreign_answer) ["cat"] [meta_a] 2
    [["cat"]] tt.

End Examples.

End Bm25sAdapter.

(** ** [docling_api.py] *)

Module DoclingApi.

(** *** Python operations on decoded JSON *)

(** The operations of [load] that raise on an operand of the wrong type. *)
Inductive py_op :=
  | OpContains     (* [key in v] *)
  | OpGetitem      (* [v[key]] *)
  | OpSlice        (* [v[:100]] *)
  | OpUpdate       (* [metadata.update(v)] *)
  | OpPageContent. (* [Document(page_content=v, ...)] *)

(** [bool(v)] *)
Definition truthy (v : value) : bool :=
  match v with
  | VNone => false
  | VBool b => b
  | VInt z => negb (z =? 0)%Z
  | VFloat f => negb (PrimFloat.eqb f 0)
  | VStr s => negb (bool_decide (s = ""))
  | VList l => negb (bool_decide (l = []))
  | VDict m => negb (bool_decide (m = ∅))
  end.

(** [needle in hay] for two strings *)
Fixpoint is_substring (needle hay : string) : bool :=
  String.prefix needle hay ||
  match hay with
  | EmptyString => false
  | String _ hay' => is_substring needle hay'
  end.

Definition is_str (key : string) (v : value) : bool :=
  match v with
  | VStr s => bool_decide (s = key)
  | _ => false
  end.

(** [s.rstrip("/")] *)
Fixpoint rstrip_slash (s : string) : string :=
  match s with
  | EmptyString => EmptyString
  | String c s' =>
      match rstrip_slash s' with
      | EmptyString => if decide (c = "/"%char) then EmptyString else String c EmptyString
      | rest => String c rest
      end
  end.

(** The part of [s] after the last [sep], all of [s] when there is none:
    [s.split(sep)[-1]], and [os.path.basename] for [sep = "/"]. *)
Fixpoint last_segment (sep : ascii) (cur : string) (s : string) : string :=
  match s with
  | EmptyString => cur
  | String c s' =>
      if decide (c = sep) then last_segment sep "" s'
      else last_segment sep (cur +:+ String c "") s'
  end.

(** [s.lower()], on the letters A to Z. *)
Definition lower_char (c : ascii) : ascii :=
  let n := nat_of_ascii c in
  if decide (65 <= n <= 90)%nat then ascii_of_nat (n + 32) else c.

Fixpoint lower (s : string) : string :=
  match s with
  | EmptyString => EmptyString
  | String c s' => String (lower_char c) (lower s')
  end.

(** *** What the loader calls: the interpreter, the file system, [requests] *)

(** [requests.Response], as far as [load] reads it. *)
Record Response := {
  ok : bool;
  status_code : Z;
  reason : string;        (* as an f-string prints it *)
  text : string;
  json : outcome value     (* [response.json()] *)
}.

Class Runtime := {
  (** an open file object *)
  file : Type;
  (** [repr(v)], which is what [str(v)] gives for all but strings *)
  repr : value -> string;
  (** the text of the exception an operation raises on operand [v] *)
  error_text : py_op -> value -> string;
  (** [metadata.update(v)] for a string or a list [v] (a sequence of
      pairs, or an error) *)
  update_from_sequence : dict -> value -> outcome dict;
  (** [os.path.exists(path)] *)
  path_exists : string -> bool;
  (** [open(path, "rb")] *)
  open_rb : string -> outcome file;
  (** [requests.post(endpoint, files={"document": (name, f, mime)}, data=data)] *)
  post : string -> string * file * string -> gmap string string -> outcome Response
}.

Section Loader.
Context `{RT : Runtime}.

(** [f"{v}"] *)
Definition format (v : value) : string :=
  match v with
  | VStr s => s
  | _ => repr v
  end.

(** [key in v] *)
Definition contains (key : string) (v : value) : outcome bool :=
  match v with
  | VDict m => Ok (bool_decide (is_Some (m !! key)))
  | VList l => Ok (existsb (is_str key) l)
  | VStr s => Ok (is_substring key s)
  | _ => Raised (Exn TypeError (error_text OpContains v))
  end.

(** [v[key]] for a string [key] *)
Definition getitem (v : value) (key : string) : outcome value :=
  match v with
  | VDict m =>
      match m !! key with
      | Some x => Ok x
      | None => Raised (Exn KeyError ("'" +:+ key +:+ "'"))
      end
  | _ => Raised (Exn TypeError (error_text OpGetitem v))
  end.

(** [d.get(key, default)] *)
Definition dict_get (d : dict) (key : string) (dflt : value) : value :=
  default dflt (d !! key).

(** [v[:100]]; a mapping raises [TypeError] here ([KeyError] from
    Python 3.12 on, caught alike). *)
Definition slice_100 (v : value) : outcome value :=
  match v with
  | VStr s => Ok (VStr (str_take 100 s))
  | VList l => Ok (VList (take 100 l))
  | _ => Raised (Exn TypeError (error_text OpSlice v))
  end.

(** [metadata.update(v)]: the keys of [v] win. *)
Definition dict_update (metadata : dict) (v : value) : outcome dict :=
  match v with
  | VDict m => Ok (m ∪ metadata)
  | VStr _ | VList _ => update_from_sequence metadata v
  | _ => Raised (Exn TypeError (error_text OpUpdate v))
  end.

(** [Document(page_content=v, metadata=metadata)]: [page_content] must be
    a string. *)
Definition Document_new (v : value) (metadata : dict) : outcome Document :=
  match v with
  | VStr s => Ok (mkDocument s metadata)
  | _ => Raised (Exn ValidationError (error_text OpPageContent v))
  end.

(** *** The class *)

Record DoclingApiLoader := {
  url : string;
  file_path : string;
  extract_tables_as_images : bool;
  image_resolution_scale : Z
}.

Definition __init__ (url file_path : string)
    (extract_tables_as_images : bool) (image_resolution_scale : Z)
    : outcome DoclingApiLoader :=
  if decide (url = "") then
    Raised (Exn ValueError "Docling API URL cannot be empty.")
  else if negb (path_exists file_path) then
    Raised (Exn FileNotFoundError ("File not found at " +:+ file_path))
  else
    Ok {| url := rstrip_slash url;
          file_path := file_path;
          extract_tables_as_images := extract_tables_as_images;
          image_resolution_scale := Z.max 1 (Z.min 4 image_resolution_scale) |}.

Definition mime_types : gmap string string :=
  list_to_map [
    ("pdf", "application/pdf");
    ("docx", "application/vnd.openxmlformats-officedocument.wordprocessingml.document");
    ("doc", "application/msword");
    ("xlsx", "application/vnd.openxmlformats-officedocument.spreadsheetml.sheet");
    ("xls", "application/vnd.ms-excel");
    ("pptx", "application/vnd.openxmlformats-officedocument.presentationml.presentation");
    ("ppt", "application/vnd.ms-powerpoint");
    ("txt", "text/plain");
    ("csv", "text/csv");
    ("html", "text/html");
    ("htm", "text/html");
    ("xml", "application/xml");
    ("json", "application/json");
    ("md", "text/markdown") ].

Definition _get_mime_type (file_ext : string) : string :=
  default "application/octet-stream" (mime_types !! file_ext).

(** [str(b).lower()] *)
Definition str_of_bool_lower (b : bool) : string :=
  if b then "true" else "false".

(** *** [load] *)

(** Lines 79-95: the content of the response, looked for under the keys
    [content], [text], [markdown], [md_content] and then inside
    [document]. *)
Definition find_content (result : value) : outcome value :=
  content ←
    (c ← contains "content" result;
     if c : bool then getitem result "content" else
     c ← contains "text" result;
     if c : bool then getitem result "text" else
     c ← contains "markdown" result;
     if c : bool then getitem result "markdown" else
     c ← contains "md_content" result;
     if c : bool then getitem result "md_content" else
     Ok (VStr ""));
  if negb (truthy content) then
    c ← contains "document" result;
    if c : bool then
      document ← getitem result "document";
      match document with
      | VDict d =>
          Ok (dict_get d "content"
               (dict_get d "text"
                 (dict_get d "markdown"
                   (dict_get d "md_content" (VStr "")))))
      | _ => Ok content
      end
    else Ok content
  else Ok content.

(** Lines 104-111: the metadata of the document. *)
Definition build_metadata (file_name mime_type : string) (result : value)
    : outcome dict :=
  let metadata : dict :=
    <["content_type" := VStr mime_type]> (<["source" := VStr file_name]> ∅) in
  c ← contains "metadata" result;
  if c : bool then
    extra ← getitem result "metadata";
    dict_update metadata extra
  else Ok metadata.

(** Lines 115-122: the message for a response that is not [ok]. *)
Definition error_message (response : Response) : string :=
  let error_msg :=
    "Error calling Docling API: " +:+ str_of_Z (status_code response)
    +:+ " - " +:+ reason response in
  if decide (text response = "") then error_msg
  else
    match
      (error_data ← json response;
       c ← contains "detail" error_data;
       if c : bool then
         detail ← getitem error_data "detail";
         Ok (error_msg +:+ " - " +:+ format detail)
       else Ok error_msg)
    with
    | Ok msg => msg
    | Raised _ => error_msg +:+ " - " +:+ text response
    end.

Definition placeholder : string := "<No text content found>".

(** The document of a failed load. *)
Definition error_document (msg : string) : Document :=
  mkDocument ("Error during processing: " +:+ msg) ∅.

(** The body of the [try] in [load]. *)
Definition convert (self : DoclingApiLoader)
    : M (list log_record) (list Document) :=
  let endpoint := url self +:+ "/documents/convert" in
  let file_name := last_segment "/" "" (file_path self) in
  let file_ext := lower (last_segment "." "" file_name) in
  let mime_type := _get_mime_type file_ext in
  let* response :=
    (let* f := call (open_rb (file_path self)) in
     let files := (file_name, f, mime_type) in
     let data : gmap string string :=
       <["image_resolution_scale" := str_of_Z (image_resolution_scale self)]>
         (<["extract_tables_as_images" :=
              str_of_bool_lower (extract_tables_as_images self)]> ∅) in
     log INFO ("Sending document to Docling API for conversion: " +:+ file_name);;
     call (post endpoint files data)) in
  if ok response then
    let* result := call (json response) in
    log INFO "Document conversion successful";;
    log DEBUG ("Docling API response: " +:+ format result);;
    let* content := call (find_content result) in
    let* content :=
      (if negb (truthy content) then
         log WARNING "No content found in Docling API response";;
         ret (VStr placeholder)
       else ret content) in
    let* head := call (slice_100 content) in
    log DEBUG ("Extracted content: " +:+ format head +:+ "...");;
    let* metadata := call (build_metadata file_name mime_type result) in
    let* doc := call (Document_new content metadata) in
    ret [doc]
  else
    let error_msg := error_message response in
    log ERROR error_msg;;
    ret [error_document error_msg].

Definition load (self : DoclingApiLoader)
    : M (list log_record) (list Document) :=
  try_except (convert self)
    (fun e =>
       log ERROR ("An error occurred during the loading process: "
                  +:+ exn_str e);;
       ret [error_document (exn_str e)]).

(** *** What a call of [load] comes to *)

(** How far the request got. *)
Inductive attempt :=
  | Failed (e : exn)                (* [open], [post] or [json] raised *)
  | HttpError (response : Response) (* a response that is not [ok] *)
  | Converted (result : value).     (* the decoded body of an [ok] response *)

Definition file_name_of (self : DoclingApiLoader) : string :=
  last_segment "/" "" (file_path self).

Definition mime_type_of (self : DoclingApiLoader) : string :=
  _get_mime_type (lower (last_segment "." "" (file_name_of self))).

Definition form_data (self : DoclingApiLoader) : gmap string string :=
  <["image_resolution_scale" := str_of_Z (image_resolution_scale self)]>
    (<["extract_tables_as_images" :=
         str_of_bool_lower (extract_tables_as_images self)]> ∅).

Definition attempt_of (self : DoclingApiLoader) : attempt :=
  match open_rb (file_path self) with
  | Raised e => Failed e
  | Ok f =>
      match post (url self +:+ "/documents/convert")
                 (file_name_of self, f, mime_type_of self) (form_data self) with
      | Raised e => Failed e
      | Ok response =>
          if ok response then
            match json response with
            | Raised e => Failed e
            | Ok result => Converted result
            end
          else HttpError response
      end
  end.

(** A document that reports a failure. *)
Definition is_error_document (doc : Document) : Prop :=
  String.prefix "Error during processing:" (page_content doc) = true /\
  metadata doc = ∅.

(** *** The conversion read as a function *)

(** The metadata before the response adds to it (lines 104-107). *)
Definition base_metadata (self : DoclingApiLoader) : dict :=
  <["content_type" := VStr (mime_type_of self)]>
    (<["source" := VStr (file_name_of self)]> ∅).

(** The document [load] returns for the decoded body of an [ok]
    response: lines 79-113, with every raise turned into the error
    document as the handler of [load] does. *)
Definition converted_document (self : DoclingApiLoader) (result : value)
    : Document :=
  match
    (found ← find_content result;
     let content := if truthy found then found else VStr placeholder in
     _ ← slice_100 content;
     metadata ← build_metadata (file_name_of self) (mime_type_of self) result;
     Document_new content metadata)
  with
  | Ok doc => doc
  | Raised e => error_document (exn_str e)
  end.

(** Lines 79-113 as one computation that returns the document or
    raises; [converted_document] is this with the handler applied. *)
Definition conversion (self : DoclingApiLoader) (result : value)
    : outcome Document :=
  found ← find_content result;
  let content := if truthy found then found else VStr placeholder in
  _ ← slice_100 content;
  metadata ← build_metadata (file_name_of self) (mime_type_of self) result;
  Document_new content metadata.

(** *** What a body carries, said without the code

    The value under the first of the keys [content], [text], [markdown],
    [md_content] that a mapping has, the empty string when it has none. *)
Definition first_of_keys (m : dict) : value :=
  match m !! "content" with
  | Some v => v
  | None =>
      match m !! "text" with
      | Some v => v
      | None =>
          match m !! "markdown" with
          | Some v => v
          | None => default (VStr "") (m !! "md_content")
          end
      end
  end.

(** The content a JSON object carries: what its own keys give, and when
    that is empty and [document] is an object, what the keys of that
    object give. *)
Definition extracted_content (m : dict) : value :=
  let top := first_of_keys m in
  if truthy top then top
  else
    match m !! "document" with
    | Some (VDict d) => first_of_keys d
    | _ => top
    end.

(** [doc] holds the text [c] for the body [m]: with the file's metadata
    when the body has no [metadata], with the body's entries added when
    [metadata] is an object.  A [metadata] that is a number, a boolean or
    null fails the load; a string or a list may. *)
Definition holds_text (self : DoclingApiLoader) (m : dict) (c : string)
    (doc : Document) : Prop :=
  match m !! "metadata" with
  | None => doc = mkDocument c (base_metadata self)
  | Some (VDict extra) => doc = mkDocument c (extra ∪ base_metadata self)
  | Some (VStr _) | Some (VList _) =>
      is_error_document doc \/ page_content doc = c
  | Some _ => is_error_document doc
  end.

(** [c in s] for a character [c] *)
Fixpoint has_char (c : ascii) (s : string) : bool :=
  match s with
  | EmptyString => false
  | String a s' => bool_decide (a = c) || has_char c s'
  end.

(** [s] consists of slashes only (the empty string does). *)
Fixpoint only_slashes (s : string) : bool :=
  match s with
  | EmptyString => true
  | String a s' => bool_decide (a = "/"%char) && only_slashes s'
  end.

(** The loader with another path. *)
Definition with_file_path (path : string) (self : DoclingApiLoader)
    : DoclingApiLoader :=
  {| url := url self; file_path := path;
     extract_tables_as_images := extract_tables_as_images self;
     image_resolution_scale := image_resolution_scale self |}.

End Loader.

(** *** A test double for the runtime: one file, one canned response *)
Module Double.

Definition runtime (the_file : string) (server : outcome Response) : Runtime := {|
  file := unit;
  repr := fun _ => "<repr>";
  error_text := fun op _ =>
    match op with
    | OpContains => "argument is not iterable"
    | OpGetitem => "indices must be integers"
    | OpSlice => "object is not subscriptable"
    | OpUpdate => "object is not iterable"
    | OpPageContent => "Input should be a valid string"
    end;
  update_from_sequence := fun m v =>
    match v with
    | VStr "" | VList [] => Ok m
    | _ => Raised (Exn ValueError
             "dictionary update sequence element #0 has length 1; 2 is required")
    end;
  path_exists := fun path => bool_decide (path = the_file);
  open_rb := fun path =>
    if decide (path = the_file) then Ok tt
    else Raised (Exn FileNotFoundError
           ("[Errno 2] No such file or directory: '" +:+ path +:+ "'"));
  post := fun _ _ _ => server
|}.

Definition loader : @DoclingApiLoader :=
  {| url := "http://localhost:8822"; file_path := "/tmp/report.PDF";
     extract_tables_as_images := true; image_resolution_scale := 4 |}.

Definition ok_response (body : value) : Response :=
  {| ok := true; status_code := 200; reason := "OK"; text := "{...}";
     json := Ok body |}.

Definition error_response : Response :=
  {| ok := false; status_code := 500; reason := "Internal Server Error";
     text := "{...}";
     json := Ok (VDict (<["detail" := VStr "conversion failed"]> ∅)) |}.

End Double.

End DoclingApi.

(** * Proofs *)

Local Open Scope list_scope.

(** ** The BM25S adapter *)

Section AdapterProofs.
Import Bm25sAdapter.
Context `{Lib : Bm25s}.

Lemma set_metadatas_same (r : BM25SRetriever) :
  set_metadatas (metadatas r) r = r.
Proof. by destruct r. Qed.

Lemma alter_fixed {A} (f : A -> A) (l : list A) (i : nat) (x : A) :
  l !! i = Some x -> f x = x -> alter f i l = l.
Proof.
  intros Hl Hf. apply list_eq. intros j.
  destruct (decide (i = j)) as [->|Hne].
  - rewrite list_lookup_alter_eq, Hl. simpl. by rewrite Hf.
  - by rewrite list_lookup_alter_ne.
Qed.

Lemma alter_outside {A} (f : A -> A) (l : list A) (i : nat) :
  l !! i = None -> alter f i l = l.
Proof.
  intros Hl. apply list_eq. intros j.
  destruct (decide (i = j)) as [->|Hne].
  - by rewrite list_lookup_alter_eq, Hl.
  - by rewrite list_lookup_alter_ne.
Qed.

Lemma alter_agree {A} (f g : A -> A) (l : list A) (i : nat) (x : A) :
  l !! i = Some x -> f x = g x -> alter f i l = alter g i l.
Proof.
  intros Hl Hf. apply list_eq. intros j.
  destruct (decide (i = j)) as [->|Hne].
  - rewrite !list_lookup_alter_eq, Hl. simpl. by rewrite Hf.
  - by rewrite !list_lookup_alter_ne.
Qed.

(** The loop body never raises, and does what [step_store], [step_doc]
    and [step_logs] say. *)
Lemma convert_result_run (sc : score_array) (i : nat) (t : string)
    (r : BM25SRetriever) (lg : list log_record) (docs : list Document) :
  convert_result sc i t (Frame r lg docs) =
  (Frame (set_metadatas (step_store (texts r) (score_at sc i) t (metadatas r)) r)
         (lg ++ step_logs (texts r) t)
         (docs ++ [step_doc (texts r) (score_at sc i) t (metadatas r)]),
   Ok tt).
Proof.
  unfold convert_result, try_except_on, texts_index, step_store, step_doc,
    step_logs, resolve, bind, gets, ret, raise. simpl.
  destruct (list_index t (texts r)) as [idx|] eqn:Hidx; simpl.
  - destruct (decide (idx < length (metadatas r))%nat) as [Hlt|Hge].
    + destruct (lookup_lt_is_Some_2 _ _ Hlt) as [d Hd].
      destruct (score_at sc i) as [s|]; simpl; rewrite ?Hd; simpl.
      * destruct (decide (d !! "score" = None)) as [Hn|Hn]; simpl.
        -- unfold modify, append, bind, ret. simpl.
           rewrite list_lookup_alter_eq, Hd. simpl.
           rewrite (alter_agree _ (stamp (Some s)) _ _ d Hd);
             [by rewrite app_nil_r|].
           simpl. by rewrite decide_True.
        -- unfold append, modify. simpl. rewrite ?Hd. simpl.
           rewrite (alter_fixed _ _ _ d Hd), set_metadatas_same, app_nil_r;
             [done|]. simpl. by rewrite decide_False.
      * unfold append, modify. simpl. rewrite ?Hd. simpl.
        by rewrite (alter_fixed _ _ _ d Hd), set_metadatas_same, app_nil_r.
    + assert (metadatas r !! idx = None) as Hd by (apply lookup_ge_None; lia).
      rewrite Hd, (alter_outside _ _ _ Hd), set_metadatas_same, app_nil_r.
      destruct (score_at sc i) as [s|]; simpl; unfold append, modify; simpl.
      * by rewrite decide_True by apply lookup_empty.
      * done.
  - rewrite set_metadatas_same.
    unfold log, modify, add_record, log_frame. simpl.
    destruct (score_at sc i) as [s|]; simpl; unfold append, modify; simpl.
    + by rewrite decide_True by apply lookup_empty.
    + done.
Qed.

Lemma set_metadatas_twice (ms1 ms2 : list dict) (r : BM25SRetriever) :
  set_metadatas ms2 (set_metadatas ms1 r) = set_metadatas ms2 r.
Proof. done. Qed.

Lemma for_range_run (sc : score_array) (row : list string) :
  forall (i : nat) (r : BM25SRetriever) (lg : list log_record)
         (docs : list Document),
  for_range sc i row (Frame r lg docs) =
  (Frame (set_metadatas (loop_store (texts r) sc i row (metadatas r)) r)
         (lg ++ loop_logs (texts r) row)
         (docs ++ loop_docs (texts r) sc i row (metadatas r)),
   Ok tt).
Proof.
  induction row as [|t row IH]; intros i r lg docs; simpl.
  - by rewrite set_metadatas_same, !app_nil_r.
  - unfold bind. rewrite convert_result_run, IH. simpl.
    by rewrite set_metadatas_twice, <- !app_assoc.
Qed.

(** What one call does, in full: a raise of the tokenizer or of the
    backend's [retrieve] reaches the caller; otherwise the loop runs over
    the whole row. *)
Lemma run_query_eq (r : BM25SRetriever) (lg : list log_record) (q : string) :
  run_query r lg q =
  match tokenize [q] with
  | Raised e => (r, lg, Raised e)
  | Ok qt =>
      match retrieve (_retriever r) qt (texts r) (k r) with
      | Raised e => (r, lg ++ [tokenized_line qt], Raised e)
      | Ok (row, sc) =>
          (set_metadatas (loop_store (texts r) sc 0 row (metadatas r)) r,
           lg ++ [tokenized_line qt] ++ retrieved_lines row sc
              ++ loop_logs (texts r) row,
           Ok (loop_docs (texts r) sc 0 row (metadatas r)))
      end
  end.
Proof.
  unfold run_query, _get_relevant_documents, bind, call.
  destruct (tokenize [q]) as [qt|e]; [|done]. simpl.
  destruct (retrieve _ qt _ _) as [[row sc]|e]; [|done]. simpl.
  unfold try_except. rewrite for_range_run. simpl.
  by rewrite <- !app_assoc.
Qed.

(** *** Facts about one column *)

Lemma stamp_scored (o : option float) (d : dict) :
  d !! "score" <> None -> stamp o d = d.
Proof. intros Hd. destruct o; simpl; [|done]. by rewrite decide_False. Qed.

Lemma stamp_Some_scored (s : float) (d : dict) :
  stamp (Some s) d !! "score" <> None.
Proof.
  simpl. destruct (decide (d !! "score" = None)); [|done].
  by rewrite lookup_insert_eq.
Qed.

Lemma stamp_other_key (o : option float) (d : dict) (key : string) :
  key <> "score" -> stamp o d !! key = d !! key.
Proof.
  intros Hk. destruct o; simpl; [|done].
  destruct (decide (d !! "score" = None)); [|done].
  by rewrite lookup_insert_ne.
Qed.

Lemma score_at_None_S (sc : score_array) (i : nat) :
  score_at sc i = None -> score_at sc (S i) = None.
Proof.
  unfold score_at. destruct (is_ndarray sc); [|done].
  rewrite !lookup_ge_None. lia.
Qed.

Lemma step_store_length ts o t (ms : list dict) :
  length (step_store ts o t ms) = length ms.
Proof.
  unfold step_store. destruct (list_index t ts); [|done].
  apply length_alter.
Qed.

Lemma step_store_hit ts o t (ms : list dict) (j : nat) :
  list_index t ts = Some j ->
  step_store ts o t ms !! j = stamp o <$> ms !! j.
Proof.
  intros Hj. unfold step_store. rewrite Hj. apply list_lookup_alter_eq.
Qed.

Lemma step_store_miss ts o t (ms : list dict) (j : nat) :
  list_index t ts <> Some j ->
  step_store ts o t ms !! j = ms !! j.
Proof.
  intros Hj. unfold step_store.
  destruct (list_index t ts) as [idx|]; [|done].
  apply list_lookup_alter_ne. congruence.
Qed.

Lemma step_store_scored ts o t (ms : list dict) (j : nat) (d : dict) :
  ms !! j = Some d -> d !! "score" <> None ->
  step_store ts o t ms !! j = Some d.
Proof.
  intros Hd Hs.
  destruct (decide (list_index t ts = Some j)) as [Hj|Hj].
  - rewrite (step_store_hit _ _ _ _ _ Hj), Hd. simpl. by rewrite stamp_scored.
  - by rewrite step_store_miss.
Qed.

Lemma step_store_None ts t (ms : list dict) :
  step_store ts None t ms = ms.
Proof.
  unfold step_store. destruct (list_index t ts) as [idx|]; [|done].
  destruct (ms !! idx) as [d|] eqn:Hd.
  - by apply (alter_fixed _ _ _ d).
  - by apply alter_outside.
Qed.

(** *** Facts about the whole loop *)

Lemma loop_docs_length ts sc (row : list string) :
  forall i (ms : list dict), length (loop_docs ts sc i row ms) = length row.
Proof. induction row as [|t row IH]; intros i ms; simpl; [done|]. by rewrite IH. Qed.

Lemma loop_store_length ts sc (row : list string) :
  forall i (ms : list dict), length (loop_store ts sc i row ms) = length ms.
Proof.
  induction row as [|t row IH]; intros i ms; simpl; [done|].
  by rewrite IH, step_store_length.
Qed.

(** A stored mapping that has a score is never written again. *)
Lemma loop_store_scored ts sc (row : list string) :
  forall i (ms : list dict) (j : nat) (d : dict),
  ms !! j = Some d -> d !! "score" <> None ->
  loop_store ts sc i row ms !! j = Some d.
Proof.
  induction row as [|t row IH]; intros i ms j d Hd Hs; simpl; [done|].
  apply IH; [|done]. by apply step_store_scored.
Qed.

(** Once a column has no score, no later column has one, and the rest of
    the loop writes nothing. *)
Lemma loop_store_unscored ts sc (row : list string) :
  forall i (ms : list dict),
  score_at sc i = None -> loop_store ts sc i row ms = ms.
Proof.
  induction row as [|t row IH]; intros i ms Hi; simpl; [done|].
  rewrite Hi, step_store_None. apply IH. by apply score_at_None_S.
Qed.

Lemma list_index_Some (x : string) (l : list string) (i : nat) :
  list_index x l = Some i -> l !! i = Some x.
Proof.
  revert i. induction l as [|y l IH]; intros i; simpl; [done|].
  destruct (decide (y = x)) as [->|Hne].
  - by intros [= <-].
  - destruct (list_index x l) as [i'|]; simpl; [|done].
    intros [= <-]. simpl. by apply IH.
Qed.

(** [list.index] returns the first position: no earlier one holds [x]. *)
Lemma list_index_first (x : string) (l : list string) (i j : nat) :
  list_index x l = Some i -> (j < i)%nat -> l !! j <> Some x.
Proof.
  revert i j. induction l as [|y l IH]; intros i j; simpl; [done|].
  destruct (decide (y = x)) as [->|Hne].
  - intros [= <-]. lia.
  - destruct (list_index x l) as [i'|] eqn:Hi; simpl; [|done].
    intros [= <-] Hj. destruct j as [|j]; simpl.
    + congruence.
    + apply (IH i'); [done|lia].
Qed.

Lemma list_index_None (x : string) (l : list string) :
  list_index x l = None -> x ∉ l.
Proof.
  induction l as [|y l IH]; simpl; [intros _; apply not_elem_of_nil|].
  destruct (decide (y = x)) as [->|Hne]; [done|].
  destruct (list_index x l); simpl; [done|].
  intros _. rewrite elem_of_cons. intros [->|Hin]; [done|]. by apply IH.
Qed.

(** What the loop leaves in a stored mapping: the mapping itself, or the
    mapping with a score added where it had none. *)
Lemma loop_store_frame ts sc (row : list string) :
  forall i (ms : list dict) (j : nat) (d : dict),
  ms !! j = Some d ->
  exists d', loop_store ts sc i row ms !! j = Some d' /\
    (d' = d \/ (d !! "score" = None /\
                exists s, d' = <["score" := VFloat s]> d)).
Proof.
  induction row as [|t row IH]; intros i ms j d Hd; simpl; [by eauto|].
  destruct (decide (d !! "score" = None)) as [Hn|Hn].
  - destruct (decide (list_index t ts = Some j)) as [Hj|Hj].
    + pose proof (step_store_hit ts (score_at sc i) t ms j Hj) as H1.
      rewrite Hd in H1. simpl in H1.
      destruct (score_at sc i) as [s|]; simpl in H1.
      * rewrite decide_True in H1 by done.
        exists (<["score" := VFloat s]> d). split; [|by eauto].
        apply loop_store_scored; [done|]. by rewrite lookup_insert_eq.
      * by apply IH.
    + apply IH. by rewrite step_store_miss.
  - exists d. split; [|by left].
    apply loop_store_scored; [by apply step_store_scored|done].
Qed.

(** After its own column, the mapping a result resolved to is final. *)
Lemma loop_store_head ts sc (row : list string) i t (ms : list dict)
    (idx : nat) (d : dict) :
  list_index t ts = Some idx -> ms !! idx = Some d ->
  loop_store ts sc (S i) row (step_store ts (score_at sc i) t ms) !! idx
  = Some (stamp (score_at sc i) d).
Proof.
  intros Hidx Hd.
  destruct (score_at sc i) as [s|] eqn:Hs.
  - apply loop_store_scored; [|apply stamp_Some_scored].
    by rewrite (step_store_hit _ _ _ _ _ Hidx), Hd.
  - rewrite step_store_None, loop_store_unscored; [done|].
    by apply score_at_None_S.
Qed.

Lemma stamp_idem (o : option float) (d : dict) :
  stamp o (stamp o d) = stamp o d.
Proof.
  destruct o as [s|]; [|done].
  apply stamp_scored, stamp_Some_scored.
Qed.

(** Running the loop again on the store it left changes nothing and
    assembles the same documents. *)
Lemma loop_twice ts sc (row : list string) :
  forall i (ms : list dict),
  let ms' := loop_store ts sc i row ms in
  loop_store ts sc i row ms' = ms' /\
  loop_docs ts sc i row ms' = loop_docs ts sc i row ms.
Proof.
  induction row as [|t row IH]; intros i ms; simpl; [done|].
  set (o := score_at sc i). set (ms1 := step_store ts o t ms).
  set (ms' := loop_store ts sc (S i) row ms1).
  destruct (IH (S i) ms1) as [IH1 IH2]. fold ms' in IH1, IH2.
  assert (step_store ts o t ms' = ms' /\ step_doc ts o t ms' = step_doc ts o t ms)
    as [Hst Hdoc].
  { unfold step_store, step_doc, resolve.
    destruct (list_index t ts) as [idx|] eqn:Hidx; simpl; [|done].
    destruct (ms !! idx) as [d|] eqn:Hd.
    - assert (ms' !! idx = Some (stamp o d)) as Hd'
        by (by apply loop_store_head).
      rewrite Hd'. simpl. rewrite stamp_idem. split; [|done].
      apply (alter_fixed _ _ _ _ Hd'), stamp_idem.
    - assert (ms' !! idx = None) as Hd'.
      { apply lookup_ge_None. unfold ms', ms1.
        rewrite loop_store_length, step_store_length.
        by apply lookup_ge_None. }
      rewrite Hd'. split; [|done]. by apply alter_outside. }
  rewrite Hst, Hdoc, IH1, IH2. done.
Qed.

(** Every column yields one document, with the column's text; its
    metadata is the mapping its text resolves to, as the loop leaves it,
    or a new mapping holding at most the score. *)
Lemma loop_docs_final ts sc (row : list string) :
  forall i (ms : list dict) (j : nat) (t : string),
  row !! j = Some t ->
  exists doc, loop_docs ts sc i row ms !! j = Some doc /\
    page_content doc = t /\
    metadata doc =
      match resolve ts (loop_store ts sc i row ms) t with
      | Some d' => d'
      | None => stamp (score_at sc (i + j)) ∅
      end.
Proof.
  induction row as [|t0 row IH]; intros i ms j t Hj; [done|].
  destruct j as [|j]; simpl in *.
  - injection Hj as ->. eexists. split; [done|]. split; [done|].
    unfold step_doc, resolve. simpl. rewrite Nat.add_0_r.
    destruct (list_index t ts) as [idx|] eqn:Hidx; simpl; [|done].
    destruct (ms !! idx) as [d|] eqn:Hd; simpl.
    + by rewrite (loop_store_head _ _ _ _ _ _ _ _ Hidx Hd).
    + assert (loop_store ts sc (S i) row
                (step_store ts (score_at sc i) t ms) !! idx = None) as ->; [|done].
      apply lookup_ge_None.
      rewrite loop_store_length, step_store_length. by apply lookup_ge_None.
  - destruct (IH (S i) (step_store ts (score_at sc i) t0 ms) j t Hj)
      as (doc & Hdoc & Ht & Hm).
    exists doc. split; [done|]. split; [done|].
    by rewrite Nat.add_succ_r.
Qed.

(** The score a column's document shows: a score already stored is kept;
    a new one is the column's own if no earlier column had the same text. *)
Lemma loop_docs_score ts sc (row : list string) :
  forall i (ms : list dict) (j : nat) (t : string),
  row !! j = Some t ->
  exists doc, loop_docs ts sc i row ms !! j = Some doc /\
    page_content doc = t /\
    match resolve ts ms t with
    | Some d0 =>
        (d0 !! "score" <> None -> metadata doc = d0) /\
        (d0 !! "score" = None ->
         (forall j', (j' < j)%nat -> row !! j' <> Some t) ->
         metadata doc = stamp (score_at sc (i + j)) d0)
    | None => metadata doc = stamp (score_at sc (i + j)) ∅
    end.
Proof.
  induction row as [|t0 row IH]; intros i ms j t Hj; [done|].
  destruct j as [|j]; simpl in *.
  - injection Hj as ->. eexists. split; [done|]. split; [done|].
    unfold step_doc. rewrite Nat.add_0_r.
    destruct (resolve ts ms t) as [d0|]; simpl; [|done].
    split; [|done]. intros Hs. by apply stamp_scored.
  - set (ms1 := step_store ts (score_at sc i) t0 ms).
    destruct (IH (S i) ms1 j t Hj) as (doc & Hdoc & Ht & Hm).
    exists doc. split; [done|]. split; [done|].
    rewrite Nat.add_succ_r. revert Hm. unfold resolve.
    destruct (list_index t ts) as [idx|] eqn:Hidx; simpl; [|done].
    destruct (ms !! idx) as [d0|] eqn:Hd0.
    + intros Hm. split.
      * intros Hs.
        assert (ms1 !! idx = Some d0) as H1 by (by apply step_store_scored).
        rewrite H1 in Hm. by apply Hm.
      * intros Hs Hfirst.
        assert (ms1 !! idx = Some d0) as H1.
        { unfold ms1. rewrite step_store_miss; [done|].
          intros H0. apply list_index_Some in H0, Hidx.
          apply (Hfirst 0%nat); [lia|]. simpl. congruence. }
        rewrite H1 in Hm. apply Hm; [done|].
        intros j' Hj'. apply (Hfirst (S j')). lia.
    + assert (ms1 !! idx = None) as ->; [|done].
      apply lookup_ge_None. unfold ms1. rewrite step_store_length.
      by apply lookup_ge_None.
Qed.

Lemma list_index_complete (x : string) (l : list string) (i : nat) :
  l !! i = Some x ->
  (forall j, (j < i)%nat -> l !! j <> Some x) ->
  list_index x l = Some i.
Proof.
  revert i. induction l as [|y l IH]; intros i Hi Hfirst; [done|]. simpl.
  destruct (decide (y = x)) as [->|Hne].
  - destruct i as [|i]; [done|]. exfalso. apply (Hfirst 0%nat); [lia|done].
  - destruct i as [|i]; simpl in Hi; [congruence|].
    rewrite (IH i); [done|done|].
    intros j Hj. apply (Hfirst (S j)). lia.
Qed.

Lemma loop_docs_scored ts sc (row : list string) :
  forall i (ms : list dict) (j : nat) (doc : Document),
  loop_docs ts sc i row ms !! j = Some doc ->
  score_at sc (i + j) <> None ->
  metadata doc !! "score" <> None.
Proof.
  induction row as [|t row IH]; intros i ms j doc Hdoc Hs; [done|].
  destruct j as [|j]; simpl in Hdoc.
  - injection Hdoc as <-. rewrite Nat.add_0_r in Hs. simpl.
    destruct (score_at sc i) as [s|]; [|done]. apply stamp_Some_scored.
  - apply (IH _ _ _ _ Hdoc). by rewrite Nat.add_succ_r in Hs.
Qed.

(** *** The claims *)

(** C9: when the scoring backend is missing ([BM25S_AVAILABLE] is false),
    constructing a retriever raises [ImportError] to the caller, whatever
    the arguments; nothing is logged and no retriever is made.
    [ImportError] is the code's form of the configuration error. *)
Theorem init_without_backend_raises (ts : list string) (ms : list dict)
    (k : Z) (lg : list log_record) :
  __init__ false ts ms k lg =
  (lg, Raised (Exn ImportError
     "bm25s package not found. Please install it with `pip install bm25s`.")).
Proof. reflexivity. Qed.

(** C8: when the backend is there and indexes the corpus but activating the
    numba scorer raises, construction succeeds all the same: one warning
    with the exception's text is logged, and the retriever holds the index
    as built, without acceleration. *)
Theorem init_survives_numba_failure (ts : list string) (ms : list dict)
    (k : Z) (lg : list log_record) (ct : Tokenized) (b : BM25) (e : exn) :
  tokenize ts = Ok ct ->
  index (BM25_new "lucene") ct = Ok b ->
  activate_numba_scorer b = Raised e ->
  __init__ true ts ms k lg =
  (lg ++ [LogRecord WARNING
            ("BM25S: Could not activate Numba acceleration: " +:+ exn_str e)],
   Ok {| texts := ts; metadatas := ms; k := k;
         _corpus_tokens := ct; _retriever := b |}).
Proof.
  intros Ht Hi Ha. unfold __init__, bind, call, try_except. simpl.
  by rewrite Ht, Hi, Ha.
Qed.

(** C3, as the code has it: construction checks neither the two lengths nor
    [k].  Whenever the backend is there and indexes the texts, it yields a
    retriever that stores the texts, the metadata and [k] as given. *)
Theorem init_accepts_any_lengths_and_k (ts : list string) (ms : list dict)
    (k : Z) (lg : list log_record) (ct : Tokenized) (b : BM25) :
  tokenize ts = Ok ct ->
  index (BM25_new "lucene") ct = Ok b ->
  exists r, (__init__ true ts ms k lg).2 = Ok r /\
    texts r = ts /\ metadatas r = ms /\ Bm25sAdapter.k r = k.
Proof.
  intros Ht Hi. unfold __init__, bind, call, try_except. simpl.
  rewrite Ht, Hi.
  destruct (activate_numba_scorer b); simpl; eauto.
Qed.

(** C5, as the code has it: tokenizing the query and the backend's
    [retrieve] run outside the [try]; an exception of either reaches the
    caller and leaves the retriever as it was.  When both return, the call
    returns a list with one document per retrieved column. *)
Theorem query_outcome (r : BM25SRetriever) (lg : list log_record) (q : string) :
  match tokenize [q] with
  | Raised e =>
      (run_query r lg q).2 = Raised e /\ (run_query r lg q).1.1 = r
  | Ok qt =>
      match retrieve (_retriever r) qt (texts r) (k r) with
      | Raised e =>
          (run_query r lg q).2 = Raised e /\ (run_query r lg q).1.1 = r
      | Ok (row, _) =>
          exists docs, (run_query r lg q).2 = Ok docs /\
                       length docs = length row
      end
  end.
Proof.
  rewrite run_query_eq.
  destruct (tokenize [q]) as [qt|e]; [|done].
  destruct (retrieve _ qt _ _) as [[row sc]|e]; [|done]. simpl.
  eexists. split; [done|]. apply loop_docs_length.
Qed.


(** C7: the same query issued twice in a row gets the same answer: the same
    documents in the same order with the same metadata and scores, or the
    same exception; and the second call leaves the retriever as the first
    one left it. *)
Theorem retrieve_idempotent (r : BM25SRetriever) (lg : list log_record)
    (q : string) :
  let first := run_query r lg q in
  let second := run_query first.1.1 first.1.2 q in
  second.2 = first.2 /\ second.1.1 = first.1.1.
Proof.
  simpl. rewrite (run_query_eq r lg q).
  destruct (tokenize [q]) as [qt|e] eqn:Ht; simpl.
  - destruct (retrieve (_retriever r) qt (texts r) (k r)) as [[row sc]|e] eqn:Hr;
      simpl.
    + rewrite run_query_eq, Ht. simpl. rewrite Hr. simpl.
      destruct (loop_twice (texts r) sc row 0 (metadatas r)) as [H1 H2].
      by rewrite H1, H2.
    + by rewrite run_query_eq, Ht, Hr.
  - by rewrite run_query_eq, Ht.
Qed.

(** C1, as the code has it: a result is resolved through its text, by
    [list.index]: it carries the metadata stored at the first corpus
    position whose text equals the result's text, which is that mapping as
    it was before the call or with a score added, and is what the
    retriever holds for that position when the call returns.  Of two
    documents with the same text, every result with that text therefore
    carries the mapping of the earlier one. *)
Theorem results_resolved_by_first_text_match (r : BM25SRetriever)
    (lg : list log_record) (q : string) (docs : list Document)
    (j : nat) (doc : Document) (idx : nat) (d : dict) :
  (run_query r lg q).2 = Ok docs ->
  docs !! j = Some doc ->
  texts r !! idx = Some (page_content doc) ->
  (forall j', (j' < idx)%nat -> texts r !! j' <> Some (page_content doc)) ->
  metadatas r !! idx = Some d ->
  metadatas (run_query r lg q).1.1 !! idx = Some (metadata doc) /\
  (metadata doc = d \/
   (d !! "score" = None /\ exists s, metadata doc = <["score" := VFloat s]> d)).
Proof.
  rewrite run_query_eq.
  destruct (tokenize [q]) as [qt|e]; [|done].
  destruct (retrieve _ qt _ _) as [[row sc]|e]; [|done]. simpl.
  intros [= <-] Hdoc Hidx Hfirst Hd.
  assert (is_Some (row !! j)) as [t Ht].
  { apply lookup_lt_is_Some. rewrite <- (loop_docs_length (texts r) sc row 0
      (metadatas r)). by apply lookup_lt_is_Some_1; eauto. }
  destruct (loop_docs_final (texts r) sc row 0 (metadatas r) j t Ht)
    as (doc' & Hdoc' & Hpc & Hm).
  rewrite Hdoc in Hdoc'. injection Hdoc' as <-. subst t.
  destruct (loop_store_frame (texts r) sc row 0 (metadatas r) idx d Hd)
    as (d' & Hd' & Hrel).
  revert Hm. unfold resolve.
  rewrite (list_index_complete _ _ _ Hidx Hfirst). simpl.
  rewrite Hd'. by intros ->.
Qed.

(** C2, as the code has it: a call leaves the texts, [k], the corpus tokens
    and the index as they were and keeps the number of stored mappings;
    a stored mapping is written in place, not copied: after the call it is
    what it was, or what it was with a score added where it had none. *)
Theorem retrieve_frame (r : BM25SRetriever) (lg : list log_record) (q : string) :
  let r' := (run_query r lg q).1.1 in
  texts r' = texts r /\ k r' = k r /\
  _corpus_tokens r' = _corpus_tokens r /\ _retriever r' = _retriever r /\
  length (metadatas r') = length (metadatas r) /\
  forall (idx : nat) (d : dict),
    metadatas r !! idx = Some d ->
    exists d', metadatas r' !! idx = Some d' /\
      (d' = d \/ (d !! "score" = None /\
                  exists s, d' = <["score" := VFloat s]> d)).
Proof.
  simpl. rewrite run_query_eq.
  destruct (tokenize [q]) as [qt|e]; [|by repeat split; eauto].
  destruct (retrieve _ qt _ _) as [[row sc]|e]; [|by repeat split; eauto].
  simpl. repeat split; [apply loop_store_length|].
  intros idx d Hd. by apply loop_store_frame.
Qed.

(** C4, as the code has it: a result whose column has a score carries a
    score entry.  It is the score of that column for this query when the
    text resolves to no stored mapping, or when the stored mapping had no
    score before the call and no earlier column had the same text; a score
    already in the stored mapping is kept. *)
Theorem result_score (r : BM25SRetriever) (lg : list log_record) (q : string)
    (qt : Tokenized) (row : list string) (sc : score_array)
    (i : nat) (t : string) (s : float) :
  tokenize [q] = Ok qt ->
  retrieve (_retriever r) qt (texts r) (k r) = Ok (row, sc) ->
  row !! i = Some t ->
  score_at sc i = Some s ->
  exists docs doc,
    (run_query r lg q).2 = Ok docs /\ docs !! i = Some doc /\
    page_content doc = t /\
    is_Some (metadata doc !! "score") /\
    match resolve (texts r) (metadatas r) t with
    | Some d0 =>
        match d0 !! "score" with
        | Some v => metadata doc !! "score" = Some v
        | None =>
            (forall j, (j < i)%nat -> row !! j <> Some t) ->
            metadata doc !! "score" = Some (VFloat s)
        end
    | None => metadata doc !! "score" = Some (VFloat s)
    end.
Proof.
  intros Hq Hr Ht Hs. rewrite run_query_eq, Hq, Hr. simpl.
  destruct (loop_docs_score (texts r) sc row 0 (metadatas r) i t Ht)
    as (doc & Hdoc & Hpc & Hm).
  exists (loop_docs (texts r) sc 0 row (metadatas r)), doc.
  split; [done|]. split; [done|]. split; [done|]. split.
  { apply not_eq_None_Some.
    apply (loop_docs_scored _ _ _ _ _ _ _ Hdoc). simpl. by rewrite Hs. }
  simpl in Hm. rewrite Hs in Hm.
  destruct (resolve (texts r) (metadatas r) t) as [d0|].
  - destruct Hm as [Hkeep Hnew].
    destruct (d0 !! "score") as [v|] eqn:Hv.
    + by rewrite Hkeep.
    + intros Hfirst. rewrite (Hnew eq_refl Hfirst). simpl.
      rewrite decide_True by done. apply lookup_insert_eq.
  - rewrite Hm. simpl. rewrite decide_True by apply lookup_empty.
    apply lookup_insert_eq.
Qed.

End AdapterProofs.

(** *** The claims on the example corpora *)

Section AdapterExamples.
Import Bm25sAdapter Bm25sAdapter.Examples.

(** The example retrievers are what [__init__] builds over the double. *)
Lemma double_init_builds (numba_installed : bool) (ts : list string)
    (ms : list dict) (k : Z) (lg : list log_record) :
  (@__init__ (Double.lib numba_installed) true ts ms k lg).2
  = Ok (Double.retriever numba_installed ts ms k).
Proof. by destruct numba_installed. Qed.

Lemma duplicates_answer :
  (run_query duplicates [] "cat").2 =
  Ok [ mkDocument "cat dog" (<["score" := VFloat 1]> meta_a);
       mkDocument "cat dog" (<["score" := VFloat 1]> meta_a) ].
Proof. vm_compute. reflexivity. Qed.

(** C1 fails as stated: both documents of [duplicates] are returned for
    the query "cat", and both results carry the metadata of document 0;
    the metadata of document 1 is in no result. *)
Lemma duplicates_get_first_metadata :
  exists docs, (run_query duplicates [] "cat").2 = Ok docs /\
    length docs = 2%nat /\
    ~ own_metadata_in_results duplicates docs 1.
Proof.
  eexists. split; [apply duplicates_answer|]. split; [done|].
  intros (doc & d & Hin & _ & Hd & Hsub).
  injection Hd as <-.
  assert (metadata doc !! "tag" = Some (VStr "b")) as Htag.
  { apply (lookup_weaken _ _ _ _ (eq_refl : meta_b !! "tag" = Some (VStr "b")) Hsub). }
  rewrite !elem_of_cons in Hin.
  destruct Hin as [->|[->|Hin]];
    [vm_compute in Htag; discriminate..|by apply elem_of_nil in Hin].
Qed.

(** C2 fails as stated: the query writes the score into the mapping stored
    for document 0. *)
Lemma retrieve_writes_stored_metadata :
  ~ retriever_unchanged duplicates [] "cat".
Proof.
  unfold retriever_unchanged. intros H.
  assert (metadatas (run_query duplicates [] "cat").1.1 !! 0%nat
          ≫= (fun d => d !! "score") = Some (VFloat 1)) as Hs
    by (vm_compute; reflexivity).
  rewrite H in Hs. vm_compute in Hs. discriminate.
Qed.

(** C3 fails as stated: three texts with two metadata mappings, and
    [k = 0], both construct a retriever. *)
Lemma init_takes_unequal_lengths_and_zero_k :
  ~ construction_fails (Lib := Double.lib false) true pets [meta_a; meta_b] 4 [] /\
  ~ construction_fails (Lib := Double.lib false) true pets [meta_a; meta_b; ∅] 0 [].
Proof. split; intros [e H]; vm_compute in H; discriminate. Qed.

(** C4 fails as stated: the stored metadata of [rated] holds the score 99,
    the backend scores the document 1 for the query "cat", and the result
    shows 99. *)
Lemma stored_score_is_kept :
  ~ scores_current rated [] "cat".
Proof.
  intros H.
  destruct (H [["cat"]] ["cat dog"]
              {| is_ndarray := true;
                 scores_type := "<class 'numpy.ndarray'>";
                 scores_row0 := [1%float] |})
    as (docs & Hdocs & Hscore); [vm_compute; reflexivity..|].
  vm_compute in Hdocs. injection Hdocs as <-.
  specialize (Hscore 0%nat _ 1%float eq_refl eq_refl).
  vm_compute in Hscore. inversion Hscore.
Qed.

(** The score of the first query stays in the stored mapping: a second,
    different query scores "the cat sat" 2 and still shows 1. *)
Example score_stale_across_calls :
  let first := run_query pets_short_metadata [] "cat" in
  let second := run_query first.1.1 first.1.2 "the cat" in
  (exists sc, retrieve (_retriever first.1.1) [["the"; "cat"]] pets 3
              = Ok (pets, sc) /\ score_at sc 0 = Some 2%float) /\
  (exists doc docs, second.2 = Ok (doc :: docs) /\
     page_content doc = "the cat sat" /\
     metadata doc !! "score" = Some (VFloat 1)).
Proof.
  split.
  - eexists. split; vm_compute; reflexivity.
  - eexists _, _. split; [vm_compute; reflexivity|]. split; vm_compute; reflexivity.
Qed.

(** C5 fails as stated: with three documents and the default [k = 4] the
    backend's [retrieve] raises [ValueError], and so does the call. *)
Lemma backend_error_reaches_caller :
  ~ never_raises pets_default_k [] "cat".
Proof. intros [docs H]. vm_compute in H. discriminate. Qed.

(** The theorems at work on the examples. *)

Lemma init_survives_numba_failure_witness :
  @__init__ (Double.lib false) true pets [meta_a; meta_b] 3 [] =
  ([LogRecord WARNING
      "BM25S: Could not activate Numba acceleration: Numba is not installed."],
   Ok pets_short_metadata).
Proof.
  apply (@init_survives_numba_failure (Double.lib false) pets [meta_a; meta_b]
           3 [] (map Double.words pets)
           {| Double.indexed := map Double.words pets;
              Double.backend_numba := false |}
           (Exn ImportError "Numba is not installed."));
    reflexivity.
Defined.

Lemma init_accepts_any_lengths_and_k_witness :
  exists r, (@__init__ (Double.lib true) true pets [meta_a; meta_b] 0 []).2 = Ok r /\
    texts r = pets /\ metadatas r = [meta_a; meta_b] /\ k r = 0.
Proof.
  apply (@init_accepts_any_lengths_and_k (Double.lib true) pets [meta_a; meta_b]
           0 [] (map Double.words pets)
           {| Double.indexed := map Double.words pets;
              Double.backend_numba := false |});
    reflexivity.
Defined.



Lemma results_resolved_by_first_text_match_witness :
  let doc := mkDocument "cat dog" (<["score" := VFloat 1]> meta_a) in
  metadatas (run_query duplicates [] "cat").1.1 !! 0%nat = Some (metadata doc) /\
  (metadata doc = meta_a \/
   (meta_a !! "score" = None /\
    exists s, metadata doc = <["score" := VFloat s]> meta_a)).
Proof.
  apply (results_resolved_by_first_text_match duplicates [] "cat"
           [ mkDocument "cat dog" (<["score" := VFloat 1]> meta_a);
             mkDocument "cat dog" (<["score" := VFloat 1]> meta_a) ]
           1 _ 0 meta_a);
    [vm_compute; reflexivity | reflexivity | reflexivity
    | intros j' Hj'; lia | reflexivity].
Defined.

Lemma retrieve_frame_witness :
  exists d', metadatas (run_query duplicates [] "cat").1.1 !! 0%nat = Some d' /\
    (d' = meta_a \/ (meta_a !! "score" = None /\
                     exists s, d' = <["score" := VFloat s]> meta_a)).
Proof.
  apply (retrieve_frame duplicates [] "cat"). reflexivity.
Defined.

Lemma result_score_witness :
  exists docs doc,
    (run_query duplicates [] "cat").2 = Ok docs /\ docs !! 0%nat = Some doc /\
    page_content doc = "cat dog" /\
    is_Some (metadata doc !! "score") /\
    ((forall j, (j < 0)%nat -> ["cat dog"; "cat dog"] !! j <> Some "cat dog") ->
     metadata doc !! "score" = Some (VFloat 1)).
Proof.
  apply (result_score duplicates [] "cat" [["cat"]] ["cat dog"; "cat dog"]
           {| is_ndarray := true;
              scores_type := "<class 'numpy.ndarray'>";
              scores_row0 := [1%float; 1%float] |}
           0 "cat dog" 1%float);
    vm_compute; reflexivity.
Defined.

End AdapterExamples.

(** ** The Docling loader *)

Section LoaderProofs.
Import DoclingApi.
Context `{RT : Runtime}.

Lemma error_document_is_error (msg : string) :
  is_error_document (error_document msg).
Proof. split; reflexivity. Qed.

(** [__init__] keeps the resolution scale between 1 and 4. *)
Lemma init_clamps_scale (u path : string) (tables : bool) (scale : Z)
    (self : DoclingApiLoader) :
  __init__ u path tables scale = Ok self ->
  1 <= image_resolution_scale self <= 4.
Proof.
  unfold __init__. destruct (decide (u = "")); [done|].
  destruct (path_exists path); [|done]. simpl. intros [= <-]. simpl. lia.
Qed.

End LoaderProofs.

(** *** [load] on the test double *)

Section LoaderExamples.
Import DoclingApi.

Example load_converted :
  (@load (Double.runtime "/tmp/report.PDF"
            (Ok (Double.ok_response (VDict (<["content" := VStr "Hello"]> ∅)))))
         Double.loader []).2
  = Ok [ mkDocument "Hello"
           (<["content_type" := VStr "application/pdf"]>
              (<["source" := VStr "report.PDF"]> ∅)) ].
Proof. vm_compute. reflexivity. Qed.

Example load_no_content :
  (@load (Double.runtime "/tmp/report.PDF" (Ok (Double.ok_response (VDict ∅))))
         Double.loader []).2
  = Ok [ mkDocument "<No text content found>"
           (<["content_type" := VStr "application/pdf"]>
              (<["source" := VStr "report.PDF"]> ∅)) ].
Proof. vm_compute. reflexivity. Qed.

Example load_http_error :
  (@load (Double.runtime "/tmp/report.PDF" (Ok Double.error_response))
         Double.loader []).2
  = Ok [ mkDocument
           ("Error during processing: Error calling Docling API: "
            +:+ "500 - Internal Server Error - conversion failed") ∅ ].
Proof. vm_compute. reflexivity. Qed.

Example load_file_gone :
  (@load (Double.runtime "/tmp/other" (Ok Double.error_response))
         Double.loader []).2
  = Ok [ mkDocument
           ("Error during processing: "
            +:+ "[Errno 2] No such file or directory: '/tmp/report.PDF'") ∅ ].
Proof. vm_compute. reflexivity. Qed.

(** A body whose content is a number: slicing it raises, and the loader
    answers with the error document. *)
Example load_content_not_text :
  (@load (Double.runtime "/tmp/report.PDF"
            (Ok (Double.ok_response (VDict (<["content" := VInt 5]> ∅)))))
         Double.loader []).2
  = Ok [ mkDocument "Error during processing: object is not subscriptable" ∅ ].
Proof. vm_compute. reflexivity. Qed.

End LoaderExamples.

(** ** More about the BM25S adapter *)

Section AdapterMore.
Import Bm25sAdapter.
Context `{Lib : Bm25s}.

Lemma loop_docs_texts ts sc (row : list string) :
  forall i (ms : list dict), map page_content (loop_docs ts sc i row ms) = row.
Proof.
  induction row as [|t row IH]; intros i ms; simpl; [done|]. by rewrite IH.
Qed.

Lemma list_index_absent (x : string) (l : list string) :
  x ∉ l -> list_index x l = None.
Proof.
  intros Hx. destruct (list_index x l) as [i|] eqn:Hi; [|done].
  exfalso. apply Hx. apply list_index_Some in Hi.
  by apply list_elem_of_lookup_2 in Hi.
Qed.

(** A column whose text resolves to no stored mapping gets a new mapping
    that holds the score and nothing else. *)
Lemma loop_docs_unresolved ts sc (row : list string) i (ms : list dict)
    (j : nat) (t : string) :
  row !! j = Some t -> resolve ts ms t = None ->
  loop_docs ts sc i row ms !! j
  = Some (mkDocument t (stamp (score_at sc (i + j)) ∅)).
Proof.
  intros Hj Hres.
  destruct (loop_docs_score ts sc row i ms j t Hj) as (doc & Hdoc & Hpc & Hm).
  rewrite Hres in Hm. rewrite Hdoc. f_equal.
  destruct doc as [pc md]. simpl in *. by subst.
Qed.

Lemma loop_logs_warns ts (row : list string) (j : nat) (t : string) :
  row !! j = Some t -> list_index t ts = None ->
  LogRecord WARNING ("BM25S: Document text not found in corpus: "
                     +:+ str_take 100 t +:+ "...") ∈ loop_logs ts row.
Proof.
  revert j. induction row as [|t0 row IH]; intros j Hj Hn; [done|].
  simpl. rewrite elem_of_app. destruct j as [|j]; simpl in Hj.
  - injection Hj as ->. left. unfold step_logs. rewrite Hn.
    apply list_elem_of_here.
  - right. by apply (IH j).
Qed.

(** The result texts are the texts the backend returned, in its order:
    the adapter neither drops, adds nor reorders a result. *)
Theorem result_texts_are_backend_row (r : BM25SRetriever)
    (lg : list log_record) (q : string) (qt : Tokenized)
    (row : list string) (sc : score_array) :
  tokenize [q] = Ok qt ->
  retrieve (_retriever r) qt (texts r) (k r) = Ok (row, sc) ->
  exists docs, (run_query r lg q).2 = Ok docs /\
    map page_content docs = row.
Proof.
  intros Ht Hr. rewrite run_query_eq, Ht, Hr. simpl.
  eexists. split; [done|]. apply loop_docs_texts.
Qed.

(** A returned text that is not in the corpus is not dropped: it becomes a
    document whose metadata holds the column's score and nothing else
    (nothing at all without a score), and a warning with the first 100
    characters of the text is logged. *)
Theorem unknown_text_is_kept (r : BM25SRetriever) (lg : list log_record)
    (q : string) (qt : Tokenized) (row : list string) (sc : score_array)
    (i : nat) (t : string) :
  tokenize [q] = Ok qt ->
  retrieve (_retriever r) qt (texts r) (k r) = Ok (row, sc) ->
  row !! i = Some t ->
  t ∉ texts r ->
  exists docs, (run_query r lg q).2 = Ok docs /\
    docs !! i = Some (mkDocument t
                        match score_at sc i with
                        | Some s => <["score" := VFloat s]> ∅
                        | None => ∅
                        end) /\
    LogRecord WARNING ("BM25S: Document text not found in corpus: "
                       +:+ str_take 100 t +:+ "...")
      ∈ (run_query r lg q).1.2.
Proof.
  intros Ht Hr Hi Hnot. rewrite run_query_eq, Ht, Hr. simpl.
  pose proof (list_index_absent _ _ Hnot) as Hidx.
  eexists. split; [done|]. split.
  - rewrite (loop_docs_unresolved _ _ _ _ _ _ _ Hi).
    + simpl. destruct (score_at sc i); [|done]. simpl.
      by rewrite decide_True by apply lookup_empty.
    + unfold resolve. by rewrite Hidx.
  - rewrite elem_of_app. right. repeat apply list_elem_of_further.
    by apply (loop_logs_warns _ _ i).
Qed.

(** A document at a corpus position that has no metadata entry (fewer
    metadata mappings than texts) is returned with a new mapping that holds
    the column's score and nothing else. *)
Theorem missing_metadata_entry_gets_new_mapping (r : BM25SRetriever)
    (lg : list log_record) (q : string) (qt : Tokenized)
    (row : list string) (sc : score_array) (i idx : nat) (t : string) :
  tokenize [q] = Ok qt ->
  retrieve (_retriever r) qt (texts r) (k r) = Ok (row, sc) ->
  row !! i = Some t ->
  texts r !! idx = Some t ->
  (forall j, (j < idx)%nat -> texts r !! j <> Some t) ->
  (length (metadatas r) <= idx)%nat ->
  exists docs, (run_query r lg q).2 = Ok docs /\
    docs !! i = Some (mkDocument t
                        match score_at sc i with
                        | Some s => <["score" := VFloat s]> ∅
                        | None => ∅
                        end).
Proof.
  intros Ht Hr Hi Hidx Hfirst Hlen. rewrite run_query_eq, Ht, Hr. simpl.
  eexists. split; [done|].
  rewrite (loop_docs_unresolved _ _ _ _ _ _ _ Hi).
  - simpl. destruct (score_at sc i); [|done]. simpl.
    by rewrite decide_True by apply lookup_empty.
  - unfold resolve. rewrite (list_index_complete _ _ _ Hidx Hfirst). simpl.
    by apply lookup_ge_None.
Qed.

(** A result whose text has a stored mapping carries that mapping as the
    retriever holds it when the call returns. *)
Lemma result_is_stored_mapping (r : BM25SRetriever) (lg : list log_record)
    (q : string) (docs : list Document) (j : nat) (doc : Document)
    (idx : nat) (d : dict) :
  (run_query r lg q).2 = Ok docs ->
  docs !! j = Some doc ->
  texts r !! idx = Some (page_content doc) ->
  (forall j', (j' < idx)%nat -> texts r !! j' <> Some (page_content doc)) ->
  metadatas r !! idx = Some d ->
  metadatas (run_query r lg q).1.1 !! idx = Some (metadata doc).
Proof.
  rewrite run_query_eq.
  destruct (tokenize [q]) as [qt|e]; [|done].
  destruct (retrieve _ qt _ _) as [[row sc]|e]; [|done]. simpl.
  intros [= <-] Hdoc Hidx Hfirst Hd.
  assert (is_Some (row !! j)) as [t Ht].
  { apply lookup_lt_is_Some.
    rewrite <- (loop_docs_length (texts r) sc row 0 (metadatas r)).
    by apply lookup_lt_is_Some_1; eauto. }
  destruct (loop_docs_final (texts r) sc row 0 (metadatas r) j t Ht)
    as (doc' & Hdoc' & Hpc & Hm).
  rewrite Hdoc in Hdoc'. injection Hdoc' as <-. subst t.
  destruct (loop_store_frame (texts r) sc row 0 (metadatas r) idx d Hd)
    as (d' & Hd' & _).
  revert Hm. unfold resolve.
  rewrite (list_index_complete _ _ _ Hidx Hfirst). simpl.
  rewrite Hd'. by intros ->.
Qed.

Lemma run_query_texts (r : BM25SRetriever) (lg : list log_record) (q : string) :
  texts (run_query r lg q).1.1 = texts r.
Proof.
  rewrite run_query_eq.
  destruct (tokenize [q]) as [qt|e]; [|done].
  by destruct (retrieve _ qt _ _) as [[row sc]|e].
Qed.

Lemma run_query_keeps_scored (r : BM25SRetriever) (lg : list log_record)
    (q : string) (idx : nat) (d : dict) :
  metadatas r !! idx = Some d -> d !! "score" <> None ->
  metadatas (run_query r lg q).1.1 !! idx = Some d.
Proof.
  intros Hd Hs. rewrite run_query_eq.
  destruct (tokenize [q]) as [qt|e]; [|done].
  destruct (retrieve _ qt _ _) as [[row sc]|e]; [|done]. simpl.
  by apply loop_store_scored.
Qed.

Lemma run_queries_texts (qs : list string) :
  forall (r : BM25SRetriever) (lg : list log_record),
  texts (run_queries r lg qs).1 = texts r.
Proof.
  unfold run_queries.
  induction qs as [|q qs IH]; intros r lg; simpl; [done|].
  destruct (run_query r lg q) as [[r1 lg1] res] eqn:Hq. simpl.
  rewrite IH. by rewrite <- (run_query_texts r lg q), Hq.
Qed.

Lemma run_queries_keep_scored (qs : list string) (idx : nat) (d : dict) :
  forall (r : BM25SRetriever) (lg : list log_record),
  metadatas r !! idx = Some d -> d !! "score" <> None ->
  metadatas (run_queries r lg qs).1 !! idx = Some d.
Proof.
  unfold run_queries.
  induction qs as [|q qs IH]; intros r lg Hd Hs; simpl; [done|].
  destruct (run_query r lg q) as [[r1 lg1] res] eqn:Hq. simpl.
  apply IH; [|done].
  pose proof (run_query_keeps_scored r lg q idx d Hd Hs) as H.
  by rewrite Hq in H.
Qed.

(** Scores stick: once a document with stored metadata has been returned
    with a score, every later call returns that document with the very
    same metadata, the old score included, whatever its query and however
    many calls, with whatever queries, came in between. *)
Theorem score_is_sticky (r : BM25SRetriever) (lg : list log_record)
    (q1 : string) (docs1 : list Document) (i idx : nat)
    (doc1 : Document) (d : dict) :
  let first := run_query r lg q1 in
  first.2 = Ok docs1 ->
  docs1 !! i = Some doc1 ->
  texts r !! idx = Some (page_content doc1) ->
  (forall j', (j' < idx)%nat -> texts r !! j' <> Some (page_content doc1)) ->
  metadatas r !! idx = Some d ->
  is_Some (metadata doc1 !! "score") ->
  forall (between : list string) (q2 : string) (docs2 : list Document)
         (j : nat) (doc2 : Document),
  let later := run_queries first.1.1 first.1.2 between in
  (run_query later.1 later.2 q2).2 = Ok docs2 ->
  docs2 !! j = Some doc2 ->
  page_content doc2 = page_content doc1 ->
  metadata doc2 = metadata doc1.
Proof.
  simpl. intros H1 Hdoc1 Hidx Hfirst Hd Hscore between q2 docs2 j doc2
    H2 Hdoc2 Hpc.
  pose proof (result_is_stored_mapping r lg q1 docs1 i doc1 idx d
                H1 Hdoc1 Hidx Hfirst Hd) as Hstored.
  set (r1 := (run_query r lg q1).1.1) in *.
  set (lg1 := (run_query r lg q1).1.2) in *.
  assert (d1_scored : metadata doc1 !! "score" <> None)
    by (by apply not_eq_None_Some).
  pose proof (run_queries_keep_scored between idx _ r1 lg1 Hstored d1_scored)
    as Hkept.
  set (r2 := (run_queries r1 lg1 between).1) in *.
  set (lg2 := (run_queries r1 lg1 between).2) in *.
  assert (texts r2 = texts r) as Hts.
  { unfold r2. rewrite run_queries_texts. apply run_query_texts. }
  rewrite <- Hpc, <- Hts in Hidx, Hfirst.
  pose proof (result_is_stored_mapping r2 lg2 q2 docs2 j doc2 idx _
                H2 Hdoc2 Hidx Hfirst Hkept) as Hstored2.
  rewrite (run_query_keeps_scored r2 lg2 q2 idx _ Hkept d1_scored)
    in Hstored2.
  by injection Hstored2.
Qed.

(** With the backend available, construction fails exactly when
    tokenizing or indexing the corpus raises: the exception reaches the
    caller and nothing is logged.  Otherwise it succeeds, stores the
    arguments as given and logs exactly one record, whether or not the
    numba scorer could be activated. *)
Theorem init_outcome (ts : list string) (ms : list dict) (k : Z)
    (lg : list log_record) :
  match tokenize ts with
  | Raised e => __init__ true ts ms k lg = (lg, Raised e)
  | Ok ct =>
      match index (BM25_new "lucene") ct with
      | Raised e => __init__ true ts ms k lg = (lg, Raised e)
      | Ok b =>
          exists rec r, __init__ true ts ms k lg = (lg ++ [rec], Ok r) /\
            texts r = ts /\ metadatas r = ms /\ Bm25sAdapter.k r = k /\
            _corpus_tokens r = ct /\
            match activate_numba_scorer b with
            | Ok b' => _retriever r = b' /\ level rec = INFO
            | Raised _ => _retriever r = b /\ level rec = WARNING
            end
      end
  end.
Proof.
  unfold __init__, bind, call, try_except. simpl.
  destruct (tokenize ts) as [ct|e]; [|done]. simpl.
  destruct (index _ ct) as [b|e]; [|done]. simpl.
  destruct (activate_numba_scorer b) as [b'|e]; simpl;
    eexists _, _; (split; [done|]); by repeat split.
Qed.

(** The import block: when either import raises [ImportError], also the
    one of numpy alone, the flag is false and one warning is logged, and
    constructing a retriever under that flag raises the [ImportError] that
    names bm25s.  When both succeed the flag is true and nothing is
    logged.  Any other exception of an import is not caught. *)
Theorem import_block_flag (import_bm25s import_numpy : outcome unit)
    (lg : list log_record) :
  match import_bm25s, import_numpy with
  | Ok _, Ok _ => import_block import_bm25s import_numpy lg = (lg, Ok true)
  | Raised e, _ | Ok _, Raised e =>
      if is_ImportError (exn_cls e) then
        import_block import_bm25s import_numpy lg =
          (lg ++ [LogRecord WARNING
             "bm25s package not found. BM25SRetriever will not be available."],
           Ok false) /\
        forall ts ms k lg',
          (__init__ false ts ms k lg').2 =
          Raised (Exn ImportError
            "bm25s package not found. Please install it with `pip install bm25s`.")
      else import_block import_bm25s import_numpy lg = (lg, Raised e)
  end.
Proof.
  unfold import_block, try_except_on, bind, call. simpl.
  destruct import_bm25s as [[]|e]; simpl.
  - destruct import_numpy as [[]|e]; simpl; [done|].
    by destruct (is_ImportError (exn_cls e)).
  - by destruct (is_ImportError (exn_cls e)).
Qed.

Lemma loop_store_untouched ts sc (row : list string) (idx : nat) :
  forall i (ms : list dict),
  (forall t, t ∈ row -> list_index t ts <> Some idx) ->
  loop_store ts sc i row ms !! idx = ms !! idx.
Proof.
  induction row as [|t row IH]; intros i ms Hrow; simpl; [done|].
  rewrite IH.
  - apply step_store_miss, Hrow, list_elem_of_here.
  - intros t' Ht'. by apply Hrow, list_elem_of_further.
Qed.

(** A call writes only to the mappings of matched documents: the mapping
    stored at a position whose text was not returned, or whose text occurs
    at an earlier position too, is the same after the call. *)
Theorem unmatched_metadata_untouched (r : BM25SRetriever)
    (lg : list log_record) (q : string) (qt : Tokenized)
    (row : list string) (sc : score_array) (idx : nat) :
  tokenize [q] = Ok qt ->
  retrieve (_retriever r) qt (texts r) (k r) = Ok (row, sc) ->
  (forall t, texts r !! idx = Some t ->
     t ∉ row \/ exists j, (j < idx)%nat /\ texts r !! j = Some t) ->
  metadatas (run_query r lg q).1.1 !! idx = metadatas r !! idx.
Proof.
  intros Ht Hr Hidx. rewrite run_query_eq, Ht, Hr. simpl.
  apply loop_store_untouched. intros t Hin Hl.
  destruct (Hidx t (list_index_Some _ _ _ Hl)) as [Hnot|(j & Hj & Htj)].
  - by apply Hnot.
  - by apply (list_index_first _ _ _ j Hl Hj).
Qed.

End AdapterMore.

(** *** The further properties on the examples *)

Section AdapterMoreExamples.
Import Bm25sAdapter Bm25sAdapter.Examples.

Lemma result_texts_are_backend_row_witness :
  exists docs, (run_query cat_only [] "cat").2 = Ok docs /\
    map page_content docs = ["dog"; "cat"].
Proof.
  apply (result_texts_are_backend_row cat_only [] "cat" [["cat"]] _
           {| is_ndarray := true;
              scores_type := "<class 'numpy.ndarray'>";
              scores_row0 := [2%float; 1%float] |});
    reflexivity.
Defined.

Lemma unknown_text_is_kept_witness :
  exists docs, (run_query cat_only [] "cat").2 = Ok docs /\
    docs !! 0%nat = Some (mkDocument "dog" (<["score" := VFloat 2]> ∅)) /\
    LogRecord WARNING "BM25S: Document text not found in corpus: dog..."
      ∈ (run_query cat_only [] "cat").1.2.
Proof.
  apply (unknown_text_is_kept cat_only [] "cat" [["cat"]] ["dog"; "cat"]
           {| is_ndarray := true;
              scores_type := "<class 'numpy.ndarray'>";
              scores_row0 := [2%float; 1%float] |} 0 "dog");
    [reflexivity | reflexivity | reflexivity |].
  intros Hin. apply list_elem_of_singleton in Hin. discriminate.
Defined.

Lemma missing_metadata_entry_gets_new_mapping_witness :
  exists docs, (run_query pets_short_metadata [] "cat").2 = Ok docs /\
    docs !! 2%nat
    = Some (mkDocument "cats and dogs" (<["score" := VFloat 0]> ∅)).
Proof.
  apply (missing_metadata_entry_gets_new_mapping pets_short_metadata []
           "cat" [["cat"]] pets
           {| is_ndarray := true;
              scores_type := "<class 'numpy.ndarray'>";
              scores_row0 := [1%float; 0%float; 0%float] |}
           2 2 "cats and dogs");
    [vm_compute; reflexivity | vm_compute; reflexivity
    | reflexivity | reflexivity | | simpl; lia].
  intros j Hj. destruct j as [|[|j]]; [discriminate | discriminate | lia].
Defined.

Lemma unmatched_metadata_untouched_witness :
  metadatas (run_query duplicates [] "cat").1.1 !! 1%nat
  = metadatas duplicates !! 1%nat.
Proof.
  apply (unmatched_metadata_untouched duplicates [] "cat" [["cat"]]
           ["cat dog"; "cat dog"]
           {| is_ndarray := true;
              scores_type := "<class 'numpy.ndarray'>";
              scores_row0 := [1%float; 1%float] |} 1);
    [vm_compute; reflexivity | vm_compute; reflexivity |].
  intros t Ht. right. exists 0%nat. split; [lia|exact Ht].
Defined.

Lemma score_is_sticky_witness :
  exists doc2 rest,
    (run_query
       (run_queries (run_query pets_short_metadata [] "cat").1.1
                    (run_query pets_short_metadata [] "cat").1.2
                    ["dog ran"; "cats"]).1
       (run_queries (run_query pets_short_metadata [] "cat").1.1
                    (run_query pets_short_metadata [] "cat").1.2
                    ["dog ran"; "cats"]).2
       "the cat").2 = Ok (doc2 :: rest) /\
    page_content doc2 = "the cat sat" /\
    metadata doc2 = <["score" := VFloat 1]> meta_a.
Proof.
  exists (mkDocument "the cat sat" (<["score" := VFloat 1]> meta_a)),
    [ mkDocument "the dog ran" (<["score" := VFloat 0]> meta_b);
      mkDocument "cats and dogs" (<["score" := VFloat 0]> ∅) ].
  split; [vm_compute; reflexivity|]. split; [reflexivity|].
  refine (score_is_sticky pets_short_metadata [] "cat"
            [ mkDocument "the cat sat" (<["score" := VFloat 1]> meta_a);
              mkDocument "the dog ran" (<["score" := VFloat 0]> meta_b);
              mkDocument "cats and dogs" (<["score" := VFloat 0]> ∅) ]
            0 0
            (mkDocument "the cat sat" (<["score" := VFloat 1]> meta_a))
            meta_a _ _ _ _ _ _
            ["dog ran"; "cats"] "the cat"
            [ mkDocument "the cat sat" (<["score" := VFloat 1]> meta_a);
              mkDocument "the dog ran" (<["score" := VFloat 0]> meta_b);
              mkDocument "cats and dogs" (<["score" := VFloat 0]> ∅) ]
            0
            (mkDocument "the cat sat" (<["score" := VFloat 1]> meta_a))
            _ _ _);
    [ vm_compute; reflexivity | reflexivity | reflexivity
    | intros j' Hj'; lia | reflexivity
    | eexists; vm_compute; reflexivity
    | vm_compute; reflexivity | reflexivity | reflexivity ].
Defined.

Lemma init_outcome_witness :
  exists rec r,
    @__init__ (Double.lib false) true pets [meta_a; meta_b] 3 []
      = ([] ++ [rec], Ok r) /\
    texts r = pets /\ metadatas r = [meta_a; meta_b] /\ k r = 3 /\
    _corpus_tokens r = map Double.words pets /\
    _retriever r = {| Double.indexed := map Double.words pets;
                      Double.backend_numba := false |} /\
    level rec = WARNING.
Proof.
  apply (@init_outcome (Double.lib false) pets [meta_a; meta_b] 3 []).
Defined.

Lemma import_block_flag_witness :
  import_block (Ok tt)
    (Raised (Exn (OtherException "ModuleNotFoundError")
               "No module named 'numpy'")) []
  = ([] ++ [LogRecord WARNING
       "bm25s package not found. BM25SRetriever will not be available."],
     Ok false) /\
  forall ts ms k lg',
    (@__init__ (Double.lib true) false ts ms k lg').2 =
    Raised (Exn ImportError
      "bm25s package not found. Please install it with `pip install bm25s`.").
Proof.
  apply (@import_block_flag (Double.lib true) (Ok tt)
           (Raised (Exn (OtherException "ModuleNotFoundError")
                      "No module named 'numpy'")) []).
Defined.

End AdapterMoreExamples.

(** ** More about the Docling loader *)

Section LoaderMore.
Import DoclingApi.
Context `{RT : Runtime}.

(** *** Strings *)

Lemma str_app_nil (s : string) : "" +:+ s = s.
Proof. reflexivity. Qed.

Lemma str_app_cons (c : ascii) (a b : string) :
  String c a +:+ b = String c (a +:+ b).
Proof. reflexivity. Qed.

Ltac str_simpl := rewrite ?str_app_nil, ?str_app_cons in *.

Lemma app_string_assoc (a b c : string) :
  (a +:+ b) +:+ c = a +:+ (b +:+ c).
Proof. induction a as [|x a IH]; str_simpl; [done|]. by rewrite IH. Qed.

Lemma app_string_empty_r (a : string) : a +:+ "" = a.
Proof. induction a as [|x a IH]; str_simpl; [done|]. by rewrite IH. Qed.

Lemma rstrip_slash_split (s : string) :
  exists rest, s = rstrip_slash s +:+ rest /\ only_slashes rest = true.
Proof.
  induction s as [|c s IH]; simpl; [by exists ""|].
  destruct IH as (rest & Hs & Hrest).
  destruct (rstrip_slash s) as [|a r] eqn:Hr.
  - rewrite str_app_nil in Hs. subst rest.
    destruct (decide (c = "/"%char)) as [->|Hc].
    + exists (String "/" s). split; [done|]. done.
    + exists s. done.
  - exists rest. split; [|done]. rewrite str_app_cons. by rewrite <- Hs.
Qed.

Lemma rstrip_slash_no_trailing (s s' : string) :
  rstrip_slash s <> s' +:+ "/".
Proof.
  revert s'. induction s as [|c s IH]; intros s'; simpl.
  - by destruct s'.
  - destruct (rstrip_slash s) as [|a r] eqn:Hr.
    + destruct (decide (c = "/"%char)) as [->|Hc].
      * by destruct s'.
      * destruct s' as [|c' s'']; str_simpl; [congruence|].
        intros [= -> H]. by destruct s''.
    + destruct s' as [|c' s'']; str_simpl; [done|].
      intros [= -> H]. by apply (IH s'').
Qed.

Lemma rstrip_slash_only (s : string) :
  only_slashes s = true -> rstrip_slash s = "".
Proof.
  induction s as [|c s IH]; simpl; [done|].
  intros [Hc Hs]%andb_prop. apply bool_decide_eq_true in Hc as ->.
  rewrite (IH Hs). by rewrite decide_True.
Qed.

Lemma has_char_app (c : ascii) (a b : string) :
  has_char c (a +:+ b) = has_char c a || has_char c b.
Proof.
  induction a as [|x a IH]; str_simpl; simpl; [done|]. by rewrite IH, orb_assoc.
Qed.

(** [last_segment] returns an end of the string, and one without the
    separator. *)
Lemma last_segment_suffix (sep : ascii) (s : string) :
  forall cur, exists pre, cur +:+ s = pre +:+ last_segment sep cur s.
Proof.
  induction s as [|c s IH]; intros cur; simpl.
  - exists "". by rewrite app_string_empty_r.
  - destruct (decide (c = sep)) as [->|Hc].
    + destruct (IH "") as (pre & Hpre). rewrite str_app_nil in Hpre.
      exists (cur +:+ String sep pre).
      rewrite app_string_assoc, str_app_cons. by rewrite <- Hpre.
    + destruct (IH (cur +:+ String c "")) as (pre & Hpre).
      exists pre. rewrite <- Hpre. by rewrite app_string_assoc.
Qed.

Lemma last_segment_no_sep (sep : ascii) (s : string) :
  forall cur, has_char sep cur = false ->
  has_char sep (last_segment sep cur s) = false.
Proof.
  induction s as [|c s IH]; intros cur Hcur; simpl; [done|].
  destruct (decide (c = sep)) as [->|Hc].
  - by apply IH.
  - apply IH. rewrite has_char_app, Hcur. simpl.
    by rewrite bool_decide_false.
Qed.

Lemma last_segment_whole (sep : ascii) (s : string) :
  forall cur, has_char sep s = false -> last_segment sep cur s = cur +:+ s.
Proof.
  induction s as [|c s IH]; intros cur Hs; simpl in *.
  - by rewrite app_string_empty_r.
  - apply orb_false_elim in Hs as [Hc Hs].
    apply bool_decide_eq_false in Hc. rewrite decide_False by done.
    rewrite (IH _ Hs). by rewrite app_string_assoc.
Qed.

Lemma lower_app (a b : string) : lower (a +:+ b) = lower a +:+ lower b.
Proof.
  induction a as [|x a IH]; str_simpl; simpl; [done|].
  by rewrite IH, str_app_cons.
Qed.

Lemma lower_char_idem (c : ascii) : lower_char (lower_char c) = lower_char c.
Proof. destruct c as [[] [] [] [] [] [] [] []]; reflexivity. Qed.

Lemma lower_idem (s : string) : lower (lower s) = lower s.
Proof.
  induction s as [|c s IH]; simpl; [done|]. by rewrite IH, lower_char_idem.
Qed.

(** Lowering turns no character into a slash or a dot, and leaves those
    two alone. *)
Lemma lower_char_slash (c : ascii) : lower_char c = "/"%char <-> c = "/"%char.
Proof.
  destruct c as [[] [] [] [] [] [] [] []]; vm_compute; split; congruence.
Qed.

Lemma lower_char_dot (c : ascii) : lower_char c = "."%char <-> c = "."%char.
Proof.
  destruct c as [[] [] [] [] [] [] [] []]; vm_compute; split; congruence.
Qed.

Lemma last_segment_lower (sep : ascii) (s : string) :
  (forall c, lower_char c = sep <-> c = sep) ->
  forall cur,
  last_segment sep (lower cur) (lower s) = lower (last_segment sep cur s).
Proof.
  intros Hsep. induction s as [|c s IH]; intros cur; simpl; [done|].
  destruct (decide (c = sep)) as [Hc|Hc].
  - rewrite decide_True by (by apply Hsep). apply (IH "").
  - rewrite decide_False by (by rewrite Hsep).
    rewrite <- IH. by rewrite lower_app.
Qed.

Lemma prefix_app (a b : string) : String.prefix a (a +:+ b) = true.
Proof.
  induction a as [|c a IH].
  - rewrite str_app_nil. by destruct b.
  - rewrite str_app_cons. simpl. by destruct (ascii_dec c c).
Qed.

(** *** [load], case by case *)

Lemma load_failed (self : DoclingApiLoader) (lg : list log_record) (e : exn) :
  attempt_of self = Failed e ->
  (load self lg).2 = Ok [error_document (exn_str e)] /\
  exists mid, (load self lg).1 =
    lg ++ mid ++ [LogRecord ERROR
                    ("An error occurred during the loading process: "
                     +:+ exn_str e)].
Proof.
  unfold attempt_of, load, try_except, convert, file_name_of, mime_type_of,
    form_data, bind, call, log, modify, ret. simpl.
  destruct (open_rb (file_path self)) as [f|e0]; simpl.
  - destruct (post _ _ _) as [response|e0]; simpl.
    + destruct (ok response); [|done].
      destruct (json response) as [result|e0]; [done|]. simpl.
      intros [= ->]. split; [done|].
      eexists [_]. unfold add_record, log_list. by rewrite <- app_assoc.
    + intros [= ->]. split; [done|].
      eexists [_]. unfold add_record, log_list. by rewrite <- app_assoc.
  - intros [= ->]. split; [done|]. by exists [].
Qed.

Lemma load_http (self : DoclingApiLoader) (lg : list log_record)
    (response : Response) :
  attempt_of self = HttpError response ->
  load self lg =
  (lg ++ [LogRecord INFO ("Sending document to Docling API for conversion: "
                          +:+ file_name_of self);
          LogRecord ERROR (error_message response)],
   Ok [error_document (error_message response)]).
Proof.
  unfold attempt_of, load, try_except, convert, file_name_of, mime_type_of,
    form_data, bind, call, log, modify, ret. simpl.
  destruct (open_rb (file_path self)) as [f|e0]; [|done]. simpl.
  destruct (post _ _ _) as [resp|e0]; [|done]. simpl.
  destruct (ok resp) eqn:Hok.
  - by destruct (json resp).
  - intros [= ->]. rewrite ?Hok. simpl.
    unfold add_record, log_list. by rewrite <- app_assoc.
Qed.

Lemma load_ok_response (self : DoclingApiLoader) (lg : list log_record)
    (result : value) :
  attempt_of self = Converted result ->
  (load self lg).2 = Ok [converted_document self result].
Proof.
  unfold attempt_of, load, try_except, convert, converted_document,
    file_name_of, mime_type_of, form_data, bind, call, log, modify, ret.
  simpl.
  destruct (open_rb (file_path self)) as [f|e0]; [|done]. simpl.
  destruct (post _ _ _) as [resp|e0]; [|done]. simpl.
  destruct (ok resp) eqn:Hok; [|done].
  destruct (json resp) as [res|e0] eqn:Hjson; [|done]. intros [= ->].
  rewrite ?Hok. simpl. rewrite ?Hjson. simpl.
  destruct (find_content result) as [content|e]; simpl; [|done].
  destruct (truthy content) eqn:Htruthy; simpl.
  - destruct (slice_100 content) as [hd|e]; simpl; [|done].
    destruct (build_metadata _ _ result) as [md|e]; simpl; [|done].
    by destruct (Document_new content md).
  - by destruct (build_metadata _ _ result) as [md|e].
Qed.

Lemma contains_present (m : dict) (key : string) (v : value) :
  m !! key = Some v -> contains key (VDict m) = Ok true.
Proof. intros H. simpl. by rewrite bool_decide_true by eauto. Qed.

Lemma contains_absent (m : dict) (key : string) :
  m !! key = None -> contains key (VDict m) = Ok false.
Proof.
  intros H. simpl. rewrite bool_decide_false; [done|].
  rewrite H. by intros [? ?].
Qed.

Lemma truthy_str (c : string) : c <> "" -> truthy (VStr c) = true.
Proof. intros H. simpl. by rewrite bool_decide_false. Qed.

(** *** [__init__] *)

(** The stored url is the given url without its trailing slashes: what was
    cut off consists of slashes only, and what is stored ends in none. *)
Theorem init_url_has_no_trailing_slash (u path : string) (tables : bool)
    (scale : Z) (self : DoclingApiLoader) :
  __init__ u path tables scale = Ok self ->
  (exists rest, u = url self +:+ rest /\ only_slashes rest = true) /\
  (forall s', url self <> s' +:+ "/").
Proof.
  unfold __init__. destruct (decide (u = "")); [done|].
  destruct (path_exists path); [|done]. simpl. intros [= <-]. simpl.
  split; [apply rstrip_slash_split | apply rstrip_slash_no_trailing].
Qed.

(** The stored resolution scale is always between 1 and 4: a scale in that
    range is kept, a smaller one becomes 1 and a larger one 4. *)
Theorem init_scale_between_1_and_4 (u path : string) (tables : bool)
    (scale : Z) (self : DoclingApiLoader) :
  __init__ u path tables scale = Ok self ->
  1 <= image_resolution_scale self <= 4 /\
  (1 <= scale <= 4 -> image_resolution_scale self = scale) /\
  (scale < 1 -> image_resolution_scale self = 1) /\
  (4 < scale -> image_resolution_scale self = 4).
Proof.
  unfold __init__. destruct (decide (u = "")); [done|].
  destruct (path_exists path); [|done]. simpl. intros [= <-]. simpl. lia.
Qed.

(** The url is checked for emptiness before its slashes are stripped: a
    url made of slashes only passes the check and is stored as the empty
    string. *)
Theorem init_accepts_slash_only_url (u path : string) (tables : bool)
    (scale : Z) :
  u <> "" -> only_slashes u = true -> path_exists path = true ->
  exists self, __init__ u path tables scale = Ok self /\ url self = "".
Proof.
  intros Hu Hs Hp. unfold __init__.
  rewrite decide_False by done. rewrite Hp. simpl.
  eexists. split; [done|]. simpl. by apply rstrip_slash_only.
Qed.

(** *** File name and MIME type *)


(** The MIME type does not depend on the case of the letters A to Z in
    the path. *)
Theorem mime_type_ignores_case (self : DoclingApiLoader) :
  mime_type_of (with_file_path (lower (file_path self)) self)
  = mime_type_of self.
Proof.
  unfold mime_type_of, file_name_of, with_file_path. simpl.
  pose proof (last_segment_lower "/" (file_path self) lower_char_slash "")
    as Hname.
  simpl in Hname. rewrite Hname.
  pose proof (last_segment_lower "."
                (last_segment "/" "" (file_path self)) lower_char_dot "")
    as Hext.
  simpl in Hext. rewrite Hext.
  by rewrite lower_idem.
Qed.

(** A file name without a dot is taken as its own extension: the whole
    name, lowered, is looked up in the table. *)
Theorem dotless_name_is_its_own_extension (self : DoclingApiLoader) :
  has_char "." (file_name_of self) = false ->
  mime_type_of self = _get_mime_type (lower (file_name_of self)).
Proof.
  intros H. unfold mime_type_of.
  by rewrite (last_segment_whole "." _ "" H), str_app_nil.
Qed.

(** *** The content of a converted body *)

Lemma find_content_top (m : dict) (v : value) :
  m !! "content" = Some v ->
  truthy v = true \/ m !! "document" = None ->
  find_content (VDict m) = Ok v.
Proof.
  intros Hc Hv. unfold find_content.
  rewrite (contains_present _ _ _ Hc). unfold getitem. rewrite Hc.
  unfold mbind, outcome_bind.
  destruct (truthy v) eqn:Ht; [done|].
  destruct Hv as [|Hd]; [done|]. by rewrite (contains_absent _ _ Hd).
Qed.

Lemma find_content_nested (m d : dict) :
  m !! "content" = None -> m !! "text" = None ->
  m !! "markdown" = None -> m !! "md_content" = None ->
  m !! "document" = Some (VDict d) ->
  find_content (VDict m) =
  Ok (dict_get d "content"
        (dict_get d "text"
           (dict_get d "markdown" (dict_get d "md_content" (VStr ""))))).
Proof.
  intros H1 H2 H3 H4 Hd. unfold find_content.
  rewrite (contains_absent _ _ H1), (contains_absent _ _ H2),
    (contains_absent _ _ H3), (contains_absent _ _ H4),
    (contains_present _ _ _ Hd).
  unfold getitem. rewrite Hd. reflexivity.
Qed.

Lemma build_metadata_plain (self : DoclingApiLoader) (m : dict) :
  m !! "metadata" = None ->
  build_metadata (file_name_of self) (mime_type_of self) (VDict m)
  = Ok (base_metadata self).
Proof.
  intros Hm. unfold build_metadata. by rewrite (contains_absent _ _ Hm).
Qed.

Lemma build_metadata_extra (self : DoclingApiLoader) (m : dict) (v : value) :
  m !! "metadata" = Some v ->
  build_metadata (file_name_of self) (mime_type_of self) (VDict m)
  = dict_update (base_metadata self) v.
Proof.
  intros Hm. unfold build_metadata. rewrite (contains_present _ _ _ Hm).
  unfold getitem. by rewrite Hm.
Qed.

(** The document for a body whose content is a non-empty string. *)
Lemma converted_text (self : DoclingApiLoader) (result : value) (c : string) :
  find_content result = Ok (VStr c) -> c <> "" ->
  converted_document self result =
  match build_metadata (file_name_of self) (mime_type_of self) result with
  | Ok md => mkDocument c md
  | Raised e => error_document (exn_str e)
  end.
Proof.
  intros Hf Hne. unfold converted_document. rewrite Hf.
  unfold mbind, outcome_bind. rewrite (truthy_str c Hne). simpl.
  by destruct (build_metadata _ _ result).
Qed.

(** The document for a body whose content is empty. *)
Lemma converted_placeholder (self : DoclingApiLoader) (result v : value) :
  find_content result = Ok v -> truthy v = false ->
  converted_document self result =
  match build_metadata (file_name_of self) (mime_type_of self) result with
  | Ok md => mkDocument placeholder md
  | Raised e => error_document (exn_str e)
  end.
Proof.
  intros Hf Hv. unfold converted_document. rewrite Hf.
  unfold mbind, outcome_bind. rewrite Hv. simpl.
  by destruct (build_metadata _ _ result).
Qed.

(** A non-empty string under [content] is the document's text, whatever
    else the body holds; without a [metadata] key the metadata is the file
    name and the MIME type. *)
Theorem content_key_wins (self : DoclingApiLoader) (lg : list log_record)
    (m : dict) (c : string) :
  attempt_of self = Converted (VDict m) ->
  m !! "content" = Some (VStr c) ->
  c <> "" ->
  m !! "metadata" = None ->
  (load self lg).2 = Ok [mkDocument c (base_metadata self)].
Proof.
  intros Ha Hc Hne Hm. rewrite (load_ok_response _ _ _ Ha).
  rewrite (converted_text self _ c); [|apply (find_content_top _ _ Hc)|done].
  - by rewrite (build_metadata_plain _ _ Hm).
  - left. by apply truthy_str.
Qed.


(** When none of the four keys is at the top level, the text is taken
    from the mapping under [document]. *)
Theorem nested_document_content (self : DoclingApiLoader)
    (lg : list log_record) (m d : dict) (c : string) :
  attempt_of self = Converted (VDict m) ->
  m !! "content" = None -> m !! "text" = None ->
  m !! "markdown" = None -> m !! "md_content" = None ->
  m !! "document" = Some (VDict d) ->
  d !! "content" = Some (VStr c) ->
  c <> "" ->
  m !! "metadata" = None ->
  (load self lg).2 = Ok [mkDocument c (base_metadata self)].
Proof.
  intros Ha H1 H2 H3 H4 Hd Hc Hne Hm. rewrite (load_ok_response _ _ _ Ha).
  rewrite (converted_text self _ c); [| |done].
  - by rewrite (build_metadata_plain _ _ Hm).
  - rewrite (find_content_nested m d H1 H2 H3 H4 Hd).
    unfold dict_get at 1. by rewrite Hc.
Qed.

(** A body that is a JSON number, boolean or null cannot be searched for
    a key: the load ends in the error document. *)
Theorem scalar_body_is_error (self : DoclingApiLoader) (lg : list log_record)
    (result : value) :
  attempt_of self = Converted result ->
  match result with
  | VNone | VBool _ | VInt _ | VFloat _ => True
  | _ => False
  end ->
  (load self lg).2 = Ok [error_document (error_text OpContains result)].
Proof.
  intros Ha Hs. rewrite (load_ok_response _ _ _ Ha).
  by destruct result.
Qed.

(** The entries of the response's [metadata] mapping are added to the
    document's metadata and win over [source] and [content_type]. *)
Theorem response_metadata_overrides (self : DoclingApiLoader)
    (lg : list log_record) (m extra : dict) (c : string) :
  attempt_of self = Converted (VDict m) ->
  m !! "content" = Some (VStr c) ->
  c <> "" ->
  m !! "metadata" = Some (VDict extra) ->
  exists doc, (load self lg).2 = Ok [doc] /\ page_content doc = c /\
    forall key, metadata doc !! key =
      match extra !! key with
      | Some v => Some v
      | None => base_metadata self !! key
      end.
Proof.
  intros Ha Hc Hne Hm. rewrite (load_ok_response _ _ _ Ha).
  rewrite (converted_text self _ c); [|apply (find_content_top _ _ Hc)|done].
  - rewrite (build_metadata_extra _ _ _ Hm). simpl.
    eexists. split; [done|]. split; [done|]. simpl. intros key.
    rewrite lookup_union.
    by destruct (extra !! key), (base_metadata self !! key).
  - left. by apply truthy_str.
Qed.

(** A [metadata] entry that is a number, a boolean or null makes
    [metadata.update] raise: the text that was found is lost and the load
    ends in the error document. *)
Theorem scalar_metadata_is_error (self : DoclingApiLoader)
    (lg : list log_record) (m : dict) (c : string) (v : value) :
  attempt_of self = Converted (VDict m) ->
  m !! "content" = Some (VStr c) ->
  c <> "" ->
  m !! "metadata" = Some v ->
  match v with
  | VNone | VBool _ | VInt _ | VFloat _ => True
  | _ => False
  end ->
  (load self lg).2 = Ok [error_document (error_text OpUpdate v)].
Proof.
  intros Ha Hc Hne Hm Hv. rewrite (load_ok_response _ _ _ Ha).
  rewrite (converted_text self _ c); [|apply (find_content_top _ _ Hc)|done].
  - rewrite (build_metadata_extra _ _ _ Hm). by destruct v.
  - left. by apply truthy_str.
Qed.

(** *** Failures *)

Lemma error_message_shape (response : Response) :
  exists tail,
    error_message response =
    ("Error calling Docling API: " +:+ str_of_Z (status_code response)
     +:+ " - " +:+ reason response) +:+ tail.
Proof.
  unfold error_message.
  destruct (decide (text response = "")).
  - exists "". by rewrite app_string_empty_r.
  - destruct (json response) as [data|e]; simpl; [|by eexists].
    destruct (contains "detail" data) as [[]|e]; simpl;
      [|exists ""; by rewrite app_string_empty_r|by eexists].
    destruct (getitem data "detail") as [detail|e]; simpl; by eexists.
Qed.

(** For a response that is not [ok], the document starts with the status
    line and has no metadata.  With an empty body the text is exactly that
    line; a string under [detail] in a JSON body is added to it; when the
    body is no JSON, the raw text is added. *)
Theorem http_error_message (self : DoclingApiLoader) (lg : list log_record)
    (response : Response) :
  attempt_of self = HttpError response ->
  let status_line :=
    "Error calling Docling API: " +:+ str_of_Z (status_code response)
    +:+ " - " +:+ reason response in
  exists doc, (load self lg).2 = Ok [doc] /\ metadata doc = ∅ /\
    String.prefix ("Error during processing: " +:+ status_line)
                  (page_content doc) = true /\
    (text response = "" ->
     page_content doc = "Error during processing: " +:+ status_line) /\
    (forall m d, text response <> "" -> json response = Ok (VDict m) ->
       m !! "detail" = Some (VStr d) ->
       page_content doc =
       "Error during processing: " +:+ status_line +:+ " - " +:+ d) /\
    (forall e, text response <> "" -> json response = Raised e ->
       page_content doc =
       "Error during processing: " +:+ status_line +:+ " - "
       +:+ text response).
Proof.
  intros Ha. rewrite (load_http _ _ _ Ha). simpl.
  eexists. split; [done|]. split; [done|]. simpl. split.
  - destruct (error_message_shape response) as (tail & ->).
    rewrite !str_app_nil. apply prefix_app.
  - unfold error_message. split; [|split].
    + intros Ht. by rewrite decide_True.
    + intros m d Ht Hj Hd. rewrite decide_False by done. rewrite Hj.
      unfold mbind, outcome_bind. rewrite (contains_present _ _ _ Hd).
      unfold getitem. rewrite Hd. simpl.
      by rewrite !app_string_assoc.
    + intros e Ht Hj. rewrite decide_False by done. rewrite Hj. simpl.
      by rewrite !app_string_assoc.
Qed.

Lemma ends_with_last (l : list log_record) (x : log_record) :
  exists mid, l ++ [x] = mid ++ [x].
Proof. by exists l. Qed.

(** Every failure of [load] is logged at ERROR level, last of all, with
    the message the error document carries: an exception of [open], of the
    request or of the decoding, a response that is not [ok], and an
    exception raised while the body of an [ok] response is converted.  A
    load that converts the body logs nothing at ERROR level.  What was in
    the log before stays. *)
Theorem failure_is_logged (self : DoclingApiLoader) (lg : list log_record) :
  exists doc added, load self lg = (lg ++ added, Ok [doc]) /\
    match attempt_of self with
    | Failed e =>
        doc = error_document (exn_str e) /\
        exists mid, added =
          mid ++ [LogRecord ERROR
                    ("An error occurred during the loading process: "
                     +:+ exn_str e)]
    | HttpError response =>
        doc = error_document (error_message response) /\
        exists mid, added = mid ++ [LogRecord ERROR (error_message response)]
    | Converted result =>
        match conversion self result with
        | Raised e =>
            doc = error_document (exn_str e) /\
            exists mid, added =
              mid ++ [LogRecord ERROR
                        ("An error occurred during the loading process: "
                         +:+ exn_str e)]
        | Ok converted =>
            doc = converted /\
            Forall (fun rec => level rec <> ERROR) added
        end
    end.
Proof.
  unfold load, try_except, convert, attempt_of, conversion, file_name_of,
    mime_type_of, form_data, bind, call, log, modify, ret, add_record,
    log_list.
  simpl.
  destruct (open_rb (file_path self)) as [f|e]; simpl.
  2: { eexists _, [_]. split; [done|]. split; [done|]. by exists []. }
  destruct (post _ _ _) as [response|e]; simpl.
  2: { eexists _, _. split; [by rewrite <- app_assoc|].
       split; [done|]. apply ends_with_last. }
  destruct (ok response); simpl.
  2: { eexists _, _. split; [by rewrite <- app_assoc|].
       split; [done|]. apply ends_with_last. }
  destruct (json response) as [result|e]; simpl.
  2: { eexists _, _. split; [by rewrite <- app_assoc|].
       split; [done|]. apply ends_with_last. }
  destruct (find_content result) as [found|e]; simpl.
  2: { eexists _, _. split; [by rewrite <- !app_assoc|].
       split; [done|]. rewrite !app_assoc. apply ends_with_last. }
  destruct (truthy found); simpl.
  - destruct (slice_100 found) as [hd|e]; simpl.
    2: { eexists _, _. split; [by rewrite <- !app_assoc|].
         split; [done|]. rewrite !app_assoc. apply ends_with_last. }
    destruct (build_metadata _ _ result) as [md|e]; simpl.
    2: { eexists _, _. split; [by rewrite <- !app_assoc|].
         split; [done|]. rewrite !app_assoc. apply ends_with_last. }
    destruct (Document_new found md) as [doc|e]; simpl.
    + eexists _, _. split; [by rewrite <- !app_assoc|].
      split; [done|]. by repeat constructor.
    + eexists _, _. split; [by rewrite <- !app_assoc|].
      split; [done|]. rewrite !app_assoc. apply ends_with_last.
  - destruct (build_metadata _ _ result) as [md|e]; simpl.
    + eexists _, _. split; [by rewrite <- !app_assoc|].
      split; [done|]. by repeat constructor.
    + eexists _, _. split; [by rewrite <- !app_assoc|].
      split; [done|]. rewrite !app_assoc. apply ends_with_last.
Qed.

(** *** The content of a converted body, in full *)

(** On a JSON object the code finds what the object carries. *)
Lemma find_content_dict (m : dict) :
  find_content (VDict m) = Ok (extracted_content m).
Proof.
  unfold find_content, extracted_content, first_of_keys.
  destruct (m !! "content") as [v|] eqn:H1.
  - rewrite (contains_present _ _ _ H1). unfold getitem. rewrite H1.
    unfold mbind, outcome_bind.
    destruct (truthy v); [done|]. simpl.
    destruct (m !! "document") as [[]|] eqn:Hd;
      rewrite ?(contains_present _ _ _ Hd), ?(contains_absent _ _ Hd);
      simpl; rewrite ?Hd; done.
  - rewrite (contains_absent _ _ H1).
    destruct (m !! "text") as [v|] eqn:H2.
    + rewrite (contains_present _ _ _ H2). unfold getitem. rewrite H2.
      unfold mbind, outcome_bind.
      destruct (truthy v); [done|]. simpl.
      destruct (m !! "document") as [[]|] eqn:Hd;
        rewrite ?(contains_present _ _ _ Hd), ?(contains_absent _ _ Hd);
        simpl; rewrite ?Hd; done.
    + rewrite (contains_absent _ _ H2).
      destruct (m !! "markdown") as [v|] eqn:H3.
      * rewrite (contains_present _ _ _ H3). unfold getitem. rewrite H3.
        unfold mbind, outcome_bind.
        destruct (truthy v); [done|]. simpl.
        destruct (m !! "document") as [[]|] eqn:Hd;
          rewrite ?(contains_present _ _ _ Hd), ?(contains_absent _ _ Hd);
          simpl; rewrite ?Hd; done.
      * rewrite (contains_absent _ _ H3).
        destruct (m !! "md_content") as [v|] eqn:H4.
        -- rewrite (contains_present _ _ _ H4). unfold getitem. rewrite H4.
           unfold mbind, outcome_bind. simpl.
           destruct (truthy v); [done|]. simpl.
           destruct (m !! "document") as [[]|] eqn:Hd;
             rewrite ?(contains_present _ _ _ Hd), ?(contains_absent _ _ Hd);
             simpl; rewrite ?Hd; done.
        -- rewrite (contains_absent _ _ H4).
           unfold mbind, outcome_bind. simpl.
           destruct (m !! "document") as [[]|] eqn:Hd;
             rewrite ?(contains_present _ _ _ Hd), ?(contains_absent _ _ Hd);
             simpl; rewrite ?Hd; done.
Qed.

Lemma holds_text_built (self : DoclingApiLoader) (m : dict) (c : string) :
  holds_text self m c
    match build_metadata (file_name_of self) (mime_type_of self) (VDict m) with
    | Ok md => mkDocument c md
    | Raised e => error_document (exn_str e)
    end.
Proof.
  unfold holds_text. destruct (m !! "metadata") as [v|] eqn:Hm.
  - rewrite (build_metadata_extra _ _ _ Hm).
    destruct v; simpl; try apply error_document_is_error; try done;
      destruct (update_from_sequence _ _); simpl;
      (by right) || (left; apply error_document_is_error).
  - by rewrite (build_metadata_plain _ _ Hm).
Qed.

Lemma converted_not_text (self : DoclingApiLoader) (result v : value) :
  find_content result = Ok v -> truthy v = true ->
  (forall c, v <> VStr c) ->
  is_error_document (converted_document self result).
Proof.
  intros Hf Hv Hns. unfold converted_document. rewrite Hf.
  unfold mbind, outcome_bind. rewrite Hv.
  destruct v; simpl; try apply error_document_is_error.
  - by destruct (Hns s).
  - destruct (build_metadata _ _ result); apply error_document_is_error.
Qed.

(** A body that is a JSON string or array has no keys: it gives the
    placeholder or fails. *)
Lemma converted_keyless (self : DoclingApiLoader) (result : value) :
  match result with VStr _ | VList _ => True | _ => False end ->
  is_error_document (converted_document self result) \/
  page_content (converted_document self result) = placeholder.
Proof.
  intros Hr. unfold converted_document, find_content, build_metadata.
  destruct result; try done; simpl;
    repeat match goal with
           | |- context [if ?b then _ else _] => destruct b; simpl
           end;
    (by right) || (left; apply error_document_is_error).
Qed.


End LoaderMore.

(** *** The further properties on the test double *)

Section LoaderMoreExamples.
Import DoclingApi.

Lemma init_url_has_no_trailing_slash_witness :
  (exists rest, "http://localhost:8822//" = "http://localhost:8822" +:+ rest /\
                only_slashes rest = true) /\
  (forall s', "http://localhost:8822" <> s' +:+ "/").
Proof.
  apply (@init_url_has_no_trailing_slash
           (Double.runtime "/tmp/report.PDF" (Ok Double.error_response))
           "http://localhost:8822//" "/tmp/report.PDF" true 4 Double.loader).
  reflexivity.
Defined.

Lemma init_scale_between_1_and_4_witness :
  1 <= 4 <= 4 /\ (1 <= 9 <= 4 -> 4 = 9) /\ (9 < 1 -> 4 = 1) /\ (4 < 9 -> 4 = 4).
Proof.
  apply (@init_scale_between_1_and_4
           (Double.runtime "/tmp/report.PDF" (Ok Double.error_response))
           "http://localhost:8822//" "/tmp/report.PDF" true 9 Double.loader).
  reflexivity.
Defined.

Lemma init_accepts_slash_only_url_witness :
  exists self,
    @__init__ (Double.runtime "/tmp/report.PDF" (Ok Double.error_response))
      "//" "/tmp/report.PDF" true 4 = Ok self /\ url self = "".
Proof.
  apply (@init_accepts_slash_only_url
           (Double.runtime "/tmp/report.PDF" (Ok Double.error_response))
           "//" "/tmp/report.PDF" true 4);
    [discriminate | reflexivity | reflexivity].
Defined.

Lemma dotless_name_is_its_own_extension_witness :
  mime_type_of (with_file_path "/srv/in/PDF" Double.loader) = "application/pdf".
Proof.
  apply (dotless_name_is_its_own_extension
           (with_file_path "/srv/in/PDF" Double.loader)).
  reflexivity.
Defined.

Lemma content_key_wins_witness :
  (@load 
    (Double.runtime "/tmp/report.PDF" (Ok (Double.ok_response (VDict (<["text" := VStr "other"]> (<["content" := VStr "Hello"]> ∅))))))
    Double.loader []).2
  = Ok [mkDocument "Hello" (base_metadata Double.loader)].
Proof.
  apply (@content_key_wins 
    (Double.runtime "/tmp/report.PDF" (Ok (Double.ok_response (VDict (<["text" := VStr "other"]> (<["content" := VStr "Hello"]> ∅))))))
    Double.loader []
           (<["text" := VStr "other"]> (<["content" := VStr "Hello"]> ∅)) "Hello");
    [reflexivity | reflexivity | discriminate | reflexivity].
Defined.


Lemma nested_document_content_witness :
  (@load 
    (Double.runtime "/tmp/report.PDF" (Ok (Double.ok_response (VDict (<["document" := VDict (<["content" := VStr "Hello"]> ∅)]> ∅)))))
    Double.loader []).2
  = Ok [mkDocument "Hello" (base_metadata Double.loader)].
Proof.
  apply (@nested_document_content 
    (Double.runtime "/tmp/report.PDF" (Ok (Double.ok_response (VDict (<["document" := VDict (<["content" := VStr "Hello"]> ∅)]> ∅)))))
    Double.loader []
           (<["document" := VDict (<["content" := VStr "Hello"]> ∅)]> ∅) (<["content" := VStr "Hello"]> ∅) "Hello");
    [reflexivity | reflexivity | reflexivity | reflexivity | reflexivity
    | reflexivity | reflexivity | discriminate | reflexivity].
Defined.

Lemma scalar_body_is_error_witness :
  (@load (Double.runtime "/tmp/report.PDF" (Ok (Double.ok_response (VInt 3))))
         Double.loader []).2
  = Ok [error_document "argument is not iterable"].
Proof.
  apply (@scalar_body_is_error
           (Double.runtime "/tmp/report.PDF" (Ok (Double.ok_response (VInt 3))))
           Double.loader [] (VInt 3));
    [reflexivity | exact I].
Defined.

Lemma response_metadata_overrides_witness :
  exists doc, (@load 
    (Double.runtime "/tmp/report.PDF" (Ok (Double.ok_response (VDict (<["metadata" := VDict (<["source" := VStr "scan-17"]> ∅)]> (<["content" := VStr "Hello"]> ∅))))))
    Double.loader []).2 = Ok [doc] /\
    page_content doc = "Hello" /\
    forall key, metadata doc !! key =
      match (<["source" := VStr "scan-17"]> ∅ : dict) !! key with
      | Some v => Some v
      | None => base_metadata Double.loader !! key
      end.
Proof.
  apply (@response_metadata_overrides 
    (Double.runtime "/tmp/report.PDF" (Ok (Double.ok_response (VDict (<["metadata" := VDict (<["source" := VStr "scan-17"]> ∅)]> (<["content" := VStr "Hello"]> ∅))))))
    Double.loader []
           (<["metadata" := VDict (<["source" := VStr "scan-17"]> ∅)]> (<["content" := VStr "Hello"]> ∅)) (<["source" := VStr "scan-17"]> ∅) "Hello");
    [reflexivity | reflexivity | discriminate | reflexivity].
Defined.

Lemma scalar_metadata_is_error_witness :
  (@load 
    (Double.runtime "/tmp/report.PDF" (Ok (Double.ok_response (VDict (<["metadata" := VNone]> (<["content" := VStr "Hello"]> ∅))))))
    Double.loader []).2
  = Ok [error_document "object is not iterable"].
Proof.
  apply (@scalar_metadata_is_error 
    (Double.runtime "/tmp/report.PDF" (Ok (Double.ok_response (VDict (<["metadata" := VNone]> (<["content" := VStr "Hello"]> ∅))))))
    Double.loader []
           (<["metadata" := VNone]> (<["content" := VStr "Hello"]> ∅)) "Hello" VNone);
    [reflexivity | reflexivity | discriminate | reflexivity | exact I].
Defined.

Lemma http_error_message_witness :
  exists doc,
    (@load (Double.runtime "/tmp/report.PDF" (Ok Double.error_response))
           Double.loader []).2 = Ok [doc] /\
    metadata doc = ∅ /\
    String.prefix
      "Error during processing: Error calling Docling API: 500 - Internal Server Error"
      (page_content doc) = true.
Proof.
  destruct (@http_error_message
              (Double.runtime "/tmp/report.PDF" (Ok Double.error_response))
              Double.loader [] Double.error_response eq_refl)
    as (doc & Hdoc & Hmeta & Hprefix & _).
  exists doc. split; [exact Hdoc|]. split; [exact Hmeta|exact Hprefix].
Defined.

Lemma failure_is_logged_witness :
  exists doc added,
    @load (Double.runtime "/tmp/report.PDF" (Ok (Double.ok_response (VInt 3))))
      Double.loader [] = ([] ++ added, Ok [doc]) /\
    doc = error_document "argument is not iterable" /\
    exists mid, added =
      mid ++ [LogRecord ERROR
                ("An error occurred during the loading process: "
                 +:+ "argument is not iterable")].
Proof.
  apply (@failure_is_logged
           (Double.runtime "/tmp/report.PDF" (Ok (Double.ok_response (VInt 3))))
           Double.loader []).
Defined.


End LoaderMoreExamples.
